(* Shallow embedding of dol_c_kit/devkit_tools.py: hooks, the Gecko
   injection relocator, the image allocator and Project.build_dol. *)

From Stdlib Require Import ZArith List String Ascii Bool Lia.
Import ListNotations.
Open Scope string_scope.
Open Scope list_scope.
Open Scope Z_scope.

(* ------------------------------------------------------------------ *)
(** * Python exceptions and the error monad *)

Inductive exn : Type :=
| RuntimeError (msg : string)
| KeyError (key : string)
| TypeError
| StructError.

(** [inl e] is a raised exception, [inr v] a normal return. *)
Definition result (A : Type) : Type := (exn + A)%type.

Definition ret {A} (a : A) : result A := inr a.
Definition raise {A} (e : exn) : result A := inl e.
Definition bind {A B} (m : result A) (k : A -> result B) : result B :=
  match m with inl e => inl e | inr a => k a end.

Notation "'let!' x ':=' m 'in' k" := (bind m (fun x => k))
  (at level 200, x name, m at level 100, k at level 200).

(* ------------------------------------------------------------------ *)
(** * Helpers of dol_c_kit/doltools.py (not in the repository snapshot) *)

Definition zlen {A} (l : list A) : Z := Z.of_nat (List.length l).

(** Modelled from the spec: doltools.mask_field, which masks a value to a
    field of [bit_count] bits.  "you're masking off any sign extension that
    happens regardless" (comment in Immediate16Hook.resolve): the signed flag
    does not change the bits kept. *)
Definition mask_field (v bit_count : Z) (signed : bool) : Z :=
  Z.land v (Z.ones bit_count).

(** Modelled from the spec: two's-complement reading of a [n]-bit field. *)
Definition sign_extend (v n : Z) : Z :=
  if Z.testbit v (n - 1) then Z.land v (Z.ones n) - 2 ^ n else Z.land v (Z.ones n).

(** Modelled from the spec: doltools.hi, "bits 16-31 of the address, plus 1
    if bit 15 is set, only when the signed/adjusted form is requested". *)
Definition hi (x : Z) (signed : bool) : Z :=
  Z.land (Z.shiftr x 16) 0xFFFF + (if signed && Z.testbit x 15 then 1 else 0).

(** Modelled from the spec: doltools.lo, "bits 0-15, treated as a signed
    16-bit quantity" when signed. *)
Definition lo (x : Z) (signed : bool) : Z :=
  if signed then sign_extend (Z.land x 0xFFFF) 16 else Z.land x 0xFFFF.

(** Modelled from the spec: doltools.hia, "as high half but independent of
    the sign-compensation flag". *)
Definition hia (x : Z) (signed : bool) : Z := hi x true.

(** Big-endian encoding of a 32-bit word. *)
Definition be32 (w : Z) : list Z :=
  [Z.land (Z.shiftr w 24) 255; Z.land (Z.shiftr w 16) 255;
   Z.land (Z.shiftr w 8) 255; Z.land w 255].

Definition be16 (w : Z) : list Z :=
  [Z.land (Z.shiftr w 8) 255; Z.land w 255].

(** Modelled from the spec: doltools.assemble_branch, the PowerPC "b"/"bl"
    instruction at [addr] whose displacement field reaches [target]
    (primary opcode 18, 24-bit word displacement, LK in bit 0). *)
Definition assemble_branch (addr target : Z) (LK : bool) : list Z :=
  be32 (Z.lor (Z.lor 0x48000000 (Z.land (target - addr) 0x03FFFFFC))
              (if LK then 1 else 0)).

(** Decoding of a 4-byte big-endian "b"/"bl" placed at [pc]: its absolute
    target (32-bit wrap-around) and its LK bit. *)
Definition decode_branch (pc : Z) (bs : list Z) : option (Z * bool) :=
  match bs with
  | [b0; b1; b2; b3] =>
      let w := Z.lor (Z.shiftl b0 24) (Z.lor (Z.shiftl b1 16)
                 (Z.lor (Z.shiftl b2 8) b3)) in
      if (Z.shiftr w 26 =? 18) && negb (Z.testbit w 1)
      then Some ((pc + sign_extend (Z.land w 0x03FFFFFC) 26) mod 2 ^ 32,
                 Z.testbit w 0)
      else None
  | _ => None
  end.

(* ------------------------------------------------------------------ *)
(** * The base image (dolreader's DolFile, an external collaborator) *)

Record Section := mkSection { address : Z; size : Z }.

(** The DOL format's section table limits (DolFile.MaxTextSections and
    DolFile.MaxDataSections of dolreader). *)
Definition MaxTextSections : Z := 7.
Definition MaxDataSections : Z := 11.

(** An image: its text and data section tables, its byte contents by
    absolute address, and the current seek position. *)
Record DolFile := mkDol {
  textSections : list Section;
  dataSections : list Section;
  mem : Z -> Z;
  pos : Z
}.

Definition sections (dol : DolFile) : list Section :=
  textSections dol ++ dataSections dol.

Definition is_mapped (dol : DolFile) (a : Z) : bool :=
  existsb (fun s => (address s <=? a) && (a <? address s + size s)) (sections dol).

Definition dol_seek (dol : DolFile) (a : Z) : DolFile :=
  mkDol (textSections dol) (dataSections dol) (mem dol) a.

Fixpoint write_at (m : Z -> Z) (a : Z) (bs : list Z) : Z -> Z :=
  match bs with
  | [] => m
  | b :: bs' => write_at (fun x => if x =? a then b else m x) (a + 1) bs'
  end.

(** dolreader's DolFile.write only succeeds when the bytes written lie in
    the section holding the seek position (the first section containing
    it); past that section's end it raises UnmappedAddressError.  [dol_write]
    models the successful case, so the statements about hook writes below
    carry this test as a hypothesis. *)
Definition write_in_section (dol : DolFile) (a n : Z) : bool :=
  match find (fun s => (address s <=? a) && (a <? address s + size s)) (sections dol) with
  | Some s => a + n <=? address s + size s
  | None => false
  end.

(** dol.write(bytes): write at the seek position and advance it. *)
Definition dol_write (dol : DolFile) (bs : list Z) : DolFile :=
  mkDol (textSections dol) (dataSections dol)
        (write_at (mem dol) (pos dol) bs) (pos dol + zlen bs).

Fixpoint read_at (m : Z -> Z) (a : Z) (n : nat) : list Z :=
  match n with
  | O => []
  | S n' => m a :: read_at m (a + 1) n'
  end.

(** write_uint32 / write_uint16: struct.pack(">I"/">H") refuses values out
    of range. *)
Definition write_uint32 (dol : DolFile) (a v : Z) : result DolFile :=
  if (0 <=? v) && (v <? 2 ^ 32) then ret (dol_write (dol_seek dol a) (be32 v))
  else raise StructError.

Definition write_uint16 (dol : DolFile) (a v : Z) : result DolFile :=
  if (0 <=? v) && (v <? 2 ^ 16) then ret (dol_write (dol_seek dol a) (be16 v))
  else raise StructError.

(** Modelled from the spec: doltools.write_branch, which writes an
    unconditional branch (no link) at the image's current position. *)
Definition write_branch (dol : DolFile) (target : Z) : DolFile :=
  dol_write dol (assemble_branch (pos dol) target false).

(** Appending a new section holding [blob] at [addr]. *)
Definition append_text_section (dol : DolFile) (addr : Z) (blob : list Z) : DolFile :=
  mkDol (textSections dol ++ [mkSection addr (zlen blob)]) (dataSections dol)
        (write_at (mem dol) addr blob) (pos dol).

Definition append_data_section (dol : DolFile) (addr : Z) (blob : list Z) : DolFile :=
  mkDol (textSections dol) (dataSections dol ++ [mkSection addr (zlen blob)])
        (write_at (mem dol) addr blob) (pos dol).

(* ------------------------------------------------------------------ *)
(** * Symbol table *)

(** Project.symbols: name to the entry's st_value.  The two forced entries
    _SDA_BASE_ and _SDA2_BASE_ carry [None] when the project's sda bases
    were never set. *)
Definition symtab := list (string * option Z).

Fixpoint sym_lookup (syms : symtab) (k : string) : option (option Z) :=
  match syms with
  | [] => None
  | (k', v) :: rest => if String.eqb k k' then Some v else sym_lookup rest k
  end.

(** symbols[k]['st_value'] *)
Definition st_value (syms : symtab) (k : string) : result (option Z) :=
  match sym_lookup syms k with
  | Some v => ret v
  | None => raise (KeyError k)
  end.

(** An st_value used in arithmetic: None raises TypeError. *)
Definition as_int (v : option Z) : result Z :=
  match v with Some z => ret z | None => raise TypeError end.

(** self.symbols[name] = entry *)
Definition sym_set (syms : symtab) (k : string) (v : option Z) : symtab :=
  (k, v) :: filter (fun e => negb (String.eqb (fst e) k)) syms.

(* ------------------------------------------------------------------ *)
(** * Hooks *)

(** The value held in a hook's [data] attribute. *)
Inductive payload : Type :=
| PNone
| PInt (z : Z)
| PBytes (bs : list Z).

(** Python truthiness of [self.data]. *)
Definition truthy (p : payload) : bool :=
  match p with
  | PNone => false
  | PInt z => negb (z =? 0)
  | PBytes bs => match bs with [] => false | _ => true end
  end.

Inductive hook_kind : Type :=
| BranchHook (sym_name : string) (lk_bit : bool)
| PointerHook (sym_name : string)
| StringHook (str : string) (encoding : string) (max_strlen : option Z)
| FileHook (filepath : string) (start : Z) (end_ : option Z) (max_size : option Z)
| Immediate16Hook (sym_name modifier : string)
| Immediate12Hook (w i : Z) (sym_name modifier : string).

Record Hook := mkHook { kind : hook_kind; addr : Z; good : bool; data : payload }.

(** The constructors: Hook.__init__ sets good=False, data=None; String and
    File hooks then set data to an empty bytearray. *)
Definition new_hook (k : hook_kind) (a : Z) : Hook :=
  match k with
  | StringHook _ _ _ | FileHook _ _ _ _ => mkHook k a false (PBytes [])
  | _ => mkHook k a false PNone
  end.

Definition set_data (h : Hook) (p : payload) : Hook :=
  mkHook (kind h) (addr h) (good h) p.
Definition set_good (h : Hook) : Hook :=
  mkHook (kind h) (addr h) true (data h).

(** str.encode: the bytes of the string, one per character (its code
    point, below 256 for a Rocq string).  This is what Python's
    str.encode(encoding) returns when every character is ASCII and the
    encoding is ASCII-compatible ([ascii_encodable] below); other encodings
    and a non-ASCII string under "ascii" (which raises UnicodeEncodeError)
    are not covered by the statements that rely on it. *)
Definition encode (s : string) : list Z :=
  map (fun c => Z.of_nat (nat_of_ascii c)) (list_ascii_of_string s).

(** The string has only ASCII characters and [enc] names one of the
    ASCII-compatible codecs "ascii", "utf-8" and "latin-1": then
    str.encode(enc) is [encode str]. *)
Definition ascii_encodable (s enc : string) : bool :=
  forallb (fun c => Nat.ltb (nat_of_ascii c) 128) (list_ascii_of_string s) &&
  existsb (String.eqb enc) ["ascii"; "utf-8"; "latin-1"].

(** The zero padding loops of StringHook/FileHook.resolve. *)
Definition pad_to_max (bs : list Z) (max : option Z) : list Z :=
  match max with
  | None => bs
  | Some m => if zlen bs >? m then bs
              else bs ++ repeat 0 (Z.to_nat (m - zlen bs))
  end.

(** Python slicing bs[start:end]. *)
Definition py_index (i n : Z) : Z :=
  if i <? 0 then Z.max 0 (i + n) else Z.min i n.
Definition py_slice (bs : list Z) (start : Z) (end_ : option Z) : list Z :=
  let n := zlen bs in
  let s := py_index start n in
  let e := match end_ with None => n | Some e => py_index e n end in
  firstn (Z.to_nat (e - s)) (skipn (Z.to_nat s) bs).

(** The file system read by FileHook: [None] when open() raises OSError. *)
Definition filesystem := string -> option (list Z).

(** The if/elif chain on the modifier shared by Immediate16Hook.resolve and
    Immediate12Hook.resolve; an unknown modifier only prints and leaves
    [data] as it was. *)
Definition imm_modifier (modifier sym_name : string) (syms : symtab) (data : payload)
  : result payload :=
  if String.eqb modifier "@h" then
    let! v := st_value syms sym_name in let! a := as_int v in ret (PInt (hi a true))
  else if String.eqb modifier "@l" then
    let! v := st_value syms sym_name in let! a := as_int v in ret (PInt (lo a true))
  else if String.eqb modifier "@ha" then
    let! v := st_value syms sym_name in let! a := as_int v in ret (PInt (hia a true))
  else if String.eqb modifier "@sda" then
    let! b := st_value syms "_SDA_BASE_" in
    match b with
    | None => raise (RuntimeError "You must set this project's sda_base member before using the @sda modifier!  Check out the set_sda_bases method.")
    | Some bz =>
        let! v := st_value syms sym_name in let! a := as_int v in
        ret (PInt (mask_field (a - bz) 16 true))
    end
  else if String.eqb modifier "@sda2" then
    let! b := st_value syms "_SDA2_BASE_" in
    match b with
    | None => raise (RuntimeError "You must set this project's sda2_base member before using the @sda2 modifier!  Check out the set_sda_bases method.")
    | Some bz =>
        let! v := st_value syms sym_name in let! a := as_int v in
        ret (PInt (mask_field (a - bz) 16 true))
    end
  else ret data.

(** mask_field applied to [self.data]: masking None (or bytes) raises. *)
Definition py_mask_field (p : payload) (bit_count : Z) (signed : bool) : result Z :=
  match p with
  | PInt z => ret (mask_field z bit_count signed)
  | _ => raise TypeError
  end.

(** Hook.resolve for each variant. *)
Definition resolve (h : Hook) (syms : symtab) (fs : filesystem) : result Hook :=
  match kind h with
  | BranchHook name _ | PointerHook name =>
      match sym_lookup syms name with
      | Some v => ret (set_data h (match v with Some z => PInt z | None => PNone end))
      | None => ret h
      end
  | StringHook s _ max_strlen =>
      ret (set_data h (PBytes (pad_to_max (encode s ++ [0]) max_strlen)))
  | FileHook path start end_ max_size =>
      match fs path with
      | Some contents =>
          ret (set_data h (PBytes (pad_to_max (py_slice contents start end_) max_size)))
      | None => ret h
      end
  | Immediate16Hook name modifier =>
      match sym_lookup syms name with
      | Some _ =>
          let! d := imm_modifier modifier name syms (data h) in
          let! m := py_mask_field d 16 true in
          ret (set_data h (PInt m))
      | None => ret h
      end
  | Immediate12Hook w i name modifier =>
      match sym_lookup syms name with
      | Some _ =>
          let! d := imm_modifier modifier name syms (data h) in
          let! m := py_mask_field d 12 true in
          let m1 := Z.lor m (Z.shiftl (mask_field i 1 false) 12) in
          let m2 := Z.lor m1 (Z.shiftl (mask_field w 3 false) 13) in
          ret (set_data h (PInt m2))
      | None => ret h
      end
  end.

(** Hook.apply_dol for each variant. *)
Definition apply_dol (h : Hook) (dol : DolFile) : result (Hook * DolFile) :=
  match kind h with
  | BranchHook _ lk =>
      if truthy (data h) && is_mapped dol (addr h) then
        match data h with
        | PInt t => ret (set_good h,
                         dol_write (dol_seek dol (addr h)) (assemble_branch (addr h) t lk))
        | _ => raise TypeError
        end
      else ret (h, dol)
  | PointerHook _ =>
      if truthy (data h) && is_mapped dol (addr h) then
        match data h with
        | PInt v => let! dol' := write_uint32 dol (addr h) v in ret (set_good h, dol')
        | _ => raise TypeError
        end
      else ret (h, dol)
  | StringHook _ _ _ | FileHook _ _ _ _ =>
      if is_mapped dol (addr h) then
        match data h with
        | PBytes bs => ret (set_good h, dol_write (dol_seek dol (addr h)) bs)
        | _ => raise TypeError
        end
      else ret (h, dol)
  | Immediate16Hook _ _ | Immediate12Hook _ _ _ _ =>
      if truthy (data h) && is_mapped dol (addr h) then
        match data h with
        | PInt v => let! dol' := write_uint16 dol (addr h) v in ret (set_good h, dol')
        | _ => raise TypeError
        end
      else ret (h, dol)
  end.

(** The number of bytes apply_dol writes for a hook. *)
Definition payload_width (h : Hook) : Z :=
  match kind h with
  | BranchHook _ _ | PointerHook _ => 4
  | Immediate16Hook _ _ | Immediate12Hook _ _ _ _ => 2
  | StringHook _ _ _ | FileHook _ _ _ _ =>
      match data h with PBytes bs => zlen bs | _ => 0 end
  end.

(** The Gecko commands written by Hook.write_geckocommand (geckolibs'
    WriteBranch, Write32, WriteString and Write16), holding the hook's data
    as it is passed to them. *)
Inductive gecko_line : Type :=
| GWriteBranch (target : payload) (dest : Z) (isLink : bool)
| GWrite32 (value : payload) (dest : Z)
| GWriteString (value : payload) (dest : Z)
| GWrite16 (value : payload) (dest : Z).

(** Hook.write_geckocommand: the hook after the call and the lines emitted. *)
Definition write_geckocommand (h : Hook) : Hook * list gecko_line :=
  match kind h with
  | BranchHook _ lk =>
      if truthy (data h) then (set_good h, [GWriteBranch (data h) (addr h) lk]) else (h, [])
  | PointerHook _ =>
      if truthy (data h) then (set_good h, [GWrite32 (data h) (addr h)]) else (h, [])
  | StringHook _ _ _ | FileHook _ _ _ _ => (set_good h, [GWriteString (data h) (addr h)])
  | Immediate16Hook _ _ | Immediate12Hook _ _ _ _ =>
      if truthy (data h) then (set_good h, [GWrite16 (data h) (addr h)]) else (h, [])
  end.

(* ------------------------------------------------------------------ *)
(** * Gecko code table (geckolibs, an external collaborator) *)

(** GeckoCommand.Type, the code types the kit distinguishes plus the
    conditional and flow-control ones it does not support. *)
Inductive codetype : Type :=
| WRITE_8 | WRITE_16 | WRITE_32 | WRITE_STR | WRITE_SERIAL
| IF_EQ_32 | IF_NEQ_32 | IF_GT_32 | IF_LT_32
| BASE_ADDR_LOAD | REPEAT_SET | TERMINATOR
| ASM_EXECUTE | ASM_INSERT | ASM_INSERT_XOR | WRITE_BRANCH.

Definition codetype_eqb (a b : codetype) : bool :=
  match a, b with
  | WRITE_8, WRITE_8 | WRITE_16, WRITE_16 | WRITE_32, WRITE_32
  | WRITE_STR, WRITE_STR | WRITE_SERIAL, WRITE_SERIAL
  | IF_EQ_32, IF_EQ_32 | IF_NEQ_32, IF_NEQ_32 | IF_GT_32, IF_GT_32
  | IF_LT_32, IF_LT_32 | BASE_ADDR_LOAD, BASE_ADDR_LOAD
  | REPEAT_SET, REPEAT_SET | TERMINATOR, TERMINATOR
  | ASM_EXECUTE, ASM_EXECUTE | ASM_INSERT, ASM_INSERT
  | ASM_INSERT_XOR, ASM_INSERT_XOR | WRITE_BRANCH, WRITE_BRANCH => true
  | _, _ => false
  end.

Definition SupportedGeckoCodetypes : list codetype :=
  [WRITE_8; WRITE_16; WRITE_32; WRITE_STR; WRITE_SERIAL; WRITE_BRANCH;
   ASM_INSERT; ASM_INSERT_XOR].

Definition supported (t : codetype) : bool :=
  existsb (codetype_eqb t) SupportedGeckoCodetypes.

(** A command: its code type, its [_address] field and its [value] bytes. *)
Record GeckoCommand := mkCommand {
  codetype_of : codetype;
  _address : Z;
  value : list Z
}.

Record GeckoCode := mkCode {
  code_name : string;
  enabled : bool;
  commands : list GeckoCommand
}.

(** (vaddr, size, status, command) recorded per inline-assembly command. *)
Definition cmd_metadata := (Z * Z * string * GeckoCommand)%type.
(** (vaddress, len(geckoblob), status, code, command metadata) per code. *)
Definition code_metadata := (Z * Z * string * GeckoCode * list cmd_metadata)%type.

(** The status computed at the top of the loop body of build_dol. *)
Definition code_status (c : GeckoCode) : string :=
  let status := if enabled c then "ENABLED" else "DISABLED" in
  if enabled c then
    fold_left (fun st cmd => if supported (codetype_of cmd) then st else "OMITTED")
              (commands c) status
  else status.

Definition is_asm_insert (t : codetype) : bool :=
  codetype_eqb t ASM_INSERT || codetype_eqb t ASM_INSERT_XOR.

(** value[:-4] *)
Definition drop_last4 (bs : list Z) : list Z := firstn (List.length bs - 4) bs.

(** The inner loop body of build_dol over the commands of one code. *)
Definition relocate_command (status : string) (vaddress : Z)
  (acc : DolFile * list Z * list cmd_metadata) (cmd : GeckoCommand)
  : DolFile * list Z * list cmd_metadata :=
  let '(dol, geckoblob, md) := acc in
  if is_asm_insert (codetype_of cmd) then
    if String.eqb status "UNUSED" || String.eqb status "OMITTED" then
      (dol, geckoblob, md ++ [(0, zlen (value cmd), status, cmd)])
    else
      let dol1 := dol_seek dol (Z.lor (_address cmd) 0x80000000) in
      let dol2 := write_branch dol1 (vaddress + zlen geckoblob) in
      let md' := md ++ [(vaddress + zlen geckoblob, zlen (value cmd), status, cmd)] in
      let gb1 := geckoblob ++ drop_last4 (value cmd) in
      let gb2 := gb1 ++ assemble_branch (vaddress + zlen gb1)
                          (Z.lor (_address cmd + 4) 0x80000000) false in
      (dol2, gb2, md')
  else acc.

(** The outer loop body of build_dol for one code. *)
Definition relocate_code (base_addr : Z)
  (acc : DolFile * list Z * list code_metadata) (code : GeckoCode)
  : DolFile * list Z * list code_metadata :=
  let '(dol, datablob, meta) := acc in
  let status := code_status code in
  let vaddress := base_addr + zlen datablob in
  let '(dol', geckoblob, cmd_md) :=
    fold_left (relocate_command status vaddress) (commands code) (dol, [], []) in
  let meta' := match cmd_md with
               | [] => meta
               | _ => meta ++ [(vaddress, zlen geckoblob, status, code, cmd_md)]
               end in
  (dol', datablob ++ geckoblob, meta').

Definition relocate_table (base_addr : Z) (table : list GeckoCode)
  (acc : DolFile * list Z * list code_metadata) : DolFile * list Z * list code_metadata :=
  fold_left (relocate_code base_addr) table acc.

(** The bytes the inner loop appends for the commands [cmds] when their
    first fragment is placed at [pc]: for each C2/F2 command, value[:-4]
    and then a branch, from the address following those bytes, back to the
    command's origin + 4. *)
Fixpoint expected_fragments (pc : Z) (cmds : list GeckoCommand) : list Z :=
  match cmds with
  | [] => []
  | cmd :: rest =>
      if is_asm_insert (codetype_of cmd) then
        let f := drop_last4 (value cmd) in
        f ++ assemble_branch (pc + zlen f) (Z.lor (_address cmd + 4) 0x80000000) false
          ++ expected_fragments (pc + zlen f + 4) rest
      else expected_fragments pc rest
  end.

(** The geckoblob of one code when the blob already holds [pre]: nothing
    for an OMITTED code, otherwise its fragments placed at
    base + len(pre). *)
Definition code_blob (b : Z) (pre : list Z) (c : GeckoCode) : list Z :=
  if String.eqb (code_status c) "OMITTED" then []
  else expected_fragments (b + zlen pre) (commands c).

(** The geckoblobs of the codes of [table], in table order, each placed
    after the blob built so far. *)
Fixpoint code_fragments (b : Z) (pre : list Z) (table : list GeckoCode) : list Z :=
  match table with
  | [] => []
  | c :: rest => code_blob b pre c ++ code_fragments b (pre ++ code_blob b pre c) rest
  end.

(** The vaddress recorded for each code of [table] that has a C2/F2
    command: base + the blob length reached before it. *)
Fixpoint code_placements (b : Z) (pre : list Z) (table : list GeckoCode) : list Z :=
  match table with
  | [] => []
  | c :: rest =>
      (if existsb (fun cmd => is_asm_insert (codetype_of cmd)) (commands c)
       then [b + zlen pre] else [])
        ++ code_placements b (pre ++ code_blob b pre c) rest
  end.

(* ------------------------------------------------------------------ *)
(** * Image allocator *)

Definition find_rom_end (dol : DolFile) : Z :=
  fold_left (fun rom_end s => if address s + size s >? rom_end
                              then address s + size s else rom_end)
            (sections dol) 0x80000000.

(** The base-address step of build_dol: the base address and whether the
    alignment warning is printed. *)
Definition choose_base_addr (base_addr : option Z) (dol : DolFile) : Z * bool :=
  let b := match base_addr with
           | None => Z.land (find_rom_end dol + 31) 0xFFFFFFE0
           | Some b => b
           end in
  (b, negb (b mod 32 =? 0)).

(** The section-append step of build_dol. *)
Definition append_blob (dol : DolFile) (base_addr : Z) (datablob : list Z)
  : result DolFile :=
  if zlen datablob >? 0 then
    if zlen (textSections dol) <=? MaxTextSections then
      ret (append_text_section dol base_addr datablob)
    else if zlen (dataSections dol) <=? MaxDataSections then
      ret (append_data_section dol base_addr datablob)
    else raise (RuntimeError "DOL is full!  Cannot allocate any new sections.")
  else ret dol.

(* ------------------------------------------------------------------ *)
(** * Project.build_dol *)

Record Project := mkProject {
  base_addr : option Z;
  sda_base : option Z;
  sda2_base : option Z;
  symbols : symtab;
  hooks : list Hook;
  gecko_codetable : list GeckoCode;
  gecko_code_metadata : list code_metadata;
  osarena_patcher : option (DolFile -> Z -> DolFile)
}.

(** What the external toolchain step (__build_project) yields: [None] when
    nothing was compiled, otherwise the contents of project.bin and the
    non-local symbols of the linked object. *)
Definition build_output := option (list Z * symtab).

(** The symbol-table update of __process_project. *)
Definition process_symbols (p : Project) (linked : symtab) : symtab :=
  let s := fold_left (fun acc e => sym_set acc (fst e) (snd e)) linked (symbols p) in
  let s := sym_set s "_SDA_BASE_" (sda_base p) in
  sym_set s "_SDA2_BASE_" (sda2_base p).

(** The zero padding of the project binary to a multiple of 4 bytes. *)
Definition pad4 (bs : list Z) : list Z :=
  bs ++ repeat 0 (Z.to_nat ((4 - zlen bs mod 4) mod 4)).

(** for hook in self.hooks: hook.resolve(self.symbols); hook.apply_dol(dol) *)
Fixpoint apply_hooks (hs : list Hook) (syms : symtab) (fs : filesystem) (dol : DolFile)
  : result (list Hook * DolFile) :=
  match hs with
  | [] => ret ([], dol)
  | h :: rest =>
      let! h1 := resolve h syms fs in
      let! r := apply_dol h1 dol in
      let! r' := apply_hooks rest syms fs (snd r) in
      ret (fst r :: fst r', snd r')
  end.

(** The first half of Project.build_dol, up to the end of the Gecko loop:
    the base address, the symbol table, the image, the blob and the code
    metadata. *)
Definition relocation_stage (p : Project) (dol : DolFile) (built : build_output)
  : Z * symtab * DolFile * list Z * list code_metadata :=
  let b := fst (choose_base_addr (base_addr p) dol) in
  let syms := match built with
              | Some (_, linked) => process_symbols p linked
              | None => symbols p
              end in
  let datablob := match built with Some (bin, _) => pad4 bin | None => [] end in
  let '(dol1, datablob1, meta) :=
    relocate_table b (gecko_codetable p) (dol, datablob, gecko_code_metadata p) in
  (b, syms, dol1, datablob1, meta).

(** Project.build_dol on the loaded image [dol].  [built] is the outcome of
    __build_project, [fs] the files FileHooks read, and [apply_table]
    geckolibs' GeckoCodeTable.apply.  Returns the project afterwards and the
    image that is saved. *)
Definition build_dol (p : Project) (dol : DolFile) (built : build_output)
  (fs : filesystem) (apply_table : list GeckoCode -> DolFile -> DolFile)
  : result (Project * DolFile) :=
  let '(b, syms, dol1, datablob1, meta) := relocation_stage p dol built in
  let dol2 := apply_table (gecko_codetable p) dol1 in
  let! r := apply_hooks (hooks p) syms fs dol2 in
  let! dol4 := append_blob (snd r) b datablob1 in
  let dol5 := if zlen datablob1 >? 0 then
                match osarena_patcher p with
                | Some f => f dol4 (b + zlen datablob1)
                | None => dol4
                end
              else dol4 in
  ret (mkProject (Some b) (sda_base p) (sda2_base p) syms (fst r)
                 (gecko_codetable p) meta (osarena_patcher p), dol5).

(** The symbol name a hook refers to; String and File hooks refer to none. *)
Definition hook_sym_name (k : hook_kind) : option string :=
  match k with
  | BranchHook n _ | PointerHook n | Immediate16Hook n _ | Immediate12Hook _ _ n _ => Some n
  | StringHook _ _ _ | FileHook _ _ _ _ => None
  end.

(** Decoding an Immediate12 halfword into its 12-bit field, i bit and w field. *)
Definition decode_imm12 (p : Z) : Z * Z * Z :=
  (Z.land p 0xFFF, Z.land (Z.shiftr p 12) 1, Z.land (Z.shiftr p 13) 7).

(* ------------------------------------------------------------------ *)
(** * Concrete inputs *)

(** One text section [0x80003000, 0x80004000), zero-filled. *)
Definition one_section_image : DolFile :=
  mkDol [mkSection 0x80003000 0x1000] [] (fun _ => 0) 0.

(** A C2 (inline-assembly insert) command at origin 0x80003000 carrying one
    instruction and the placeholder word. *)
Definition asm_command : GeckoCommand :=
  mkCommand ASM_INSERT 0x3000 [0x60; 0; 0; 0; 0; 0; 0; 0].

Definition disabled_code : GeckoCode := mkCode "disabled" false [asm_command].
Definition enabled_code : GeckoCode := mkCode "enabled" true [asm_command].

Definition project_of (table : list GeckoCode) : Project :=
  mkProject None None None [] [] table [] None.

(* ------------------------------------------------------------------ *)
(** * Project configuration: Project.__init__ and the add/hook/set methods *)

Module Compiler.
Inductive t : Type := DevkitPPC | CodeWarrior.
Definition eqb (a b : t) : bool :=
  match a, b with
  | DevkitPPC, DevkitPPC | CodeWarrior, CodeWarrior => true
  | _, _ => false
  end.
End Compiler.

Module Assembler.
Inductive t : Type := DevkitPPC | CodeWarrior.
Definition eqb (a b : t) : bool :=
  match a, b with
  | DevkitPPC, DevkitPPC | CodeWarrior, CodeWarrior => true
  | _, _ => false
  end.
End Assembler.

Module Linker.
Inductive t : Type := DevkitPPC | CodeWarrior.
Definition eqb (a b : t) : bool :=
  match a, b with
  | DevkitPPC, DevkitPPC | CodeWarrior, CodeWarrior => true
  | _, _ => false
  end.
End Linker.

(** The compile/assemble/link members of a Project (the patch members are
    in [Project]). A source entry is (filepath, flags, use_global_flags), an
    object entry (filepath, do_cleanup). *)
Record Toolchain := mkToolchain {
  compiler : Compiler.t;
  assembler : Assembler.t;
  linker : Linker.t;
  devkitppc_path : string;
  codewarrior_path : string;
  src_dir : string;
  obj_dir : string;
  project_name : string;
  c_files : list (string * list string * bool);
  cpp_files : list (string * list string * bool);
  asm_files : list (string * list string * bool);
  obj_files : list (string * bool);
  linker_script_files : list string;
  c_flags : list string;
  cpp_flags : list string;
  asm_flags : list string;
  linker_flags : list string
}.

(** The flag lists chosen in Project.__init__, with the if/elif chains as
    written. *)
Definition init_c_flags (compiler : Compiler.t) : list string :=
  if Compiler.eqb compiler Compiler.DevkitPPC then
    ["-w"; "-std=c99"; "-O1"; "-fno-asynchronous-unwind-tables"]
  else if Compiler.eqb compiler Compiler.CodeWarrior then
    ["-proc"; "gekko"; "-Cpp_exceptions"; "off"; "-use_lmw_stmw"; "on"; "-fp"; "fmadd";
     "-schedule"; "on"]
  else [].

Definition init_cpp_flags (compiler : Compiler.t) : list string :=
  if Compiler.eqb compiler Compiler.DevkitPPC then
    ["-w"; "-std=c++98"; "-O1"; "-fno-asynchronous-unwind-tables"; "-fno-rtti"]
  else if Compiler.eqb compiler Compiler.CodeWarrior then
    ["-proc"; "gekko"; "-Cpp_exceptions"; "off"; "-fp_contract"; "on"; "-inline"; "auto";
     "-rostr"; "-use_lmw_stmw"; "on"; "-nodefaults"; "-msgstyle"; "gcc"; "-gccinc";
     "-fp"; "hard"; "-schedule"; "on"]
  else [].

Definition init_asm_flags (assembler : Assembler.t) : list string :=
  if Assembler.eqb assembler Assembler.DevkitPPC then ["-w"]
  else if Assembler.eqb assembler Assembler.DevkitPPC then ["-proc"; "gekko"]
  else [].

Definition init_linker_flags (linker : Linker.t) : list string :=
  if Linker.eqb linker Linker.DevkitPPC then []
  else if Linker.eqb linker Linker.CodeWarrior then ["-fp"; "fmadd"; "-nodefaults"]
  else [].

(** Project.__init__: [windows] is platform.system() == "Windows". *)
Definition init_toolchain (windows : bool) (compiler : Compiler.t)
  (assembler : Assembler.t) (linker : Linker.t) : Toolchain :=
  mkToolchain compiler assembler linker
    (if windows then "C:/devkitPro/devkitPPC/bin/" else "/opt/devkitpro/devkitPPC/bin/")
    (if windows
     then "C:/Program Files (x86)/Metrowerks/CodeWarrior/PowerPC_EABI_Tools/Command_Line_Tools/"
     else "/")
    "" "" "project" [] [] [] [] []
    (init_c_flags compiler) (init_cpp_flags compiler) (init_asm_flags assembler)
    (init_linker_flags linker).

Definition init_project (base_addr : option Z) : Project :=
  mkProject base_addr None None [] [] [] [] None.

Definition with_obj_files (t : Toolchain) (l : list (string * bool)) : Toolchain :=
  mkToolchain (compiler t) (assembler t) (linker t) (devkitppc_path t) (codewarrior_path t)
    (src_dir t) (obj_dir t) (project_name t) (c_files t) (cpp_files t) (asm_files t) l
    (linker_script_files t) (c_flags t) (cpp_flags t) (asm_flags t) (linker_flags t).

(** self.hooks.append(hook) *)
Definition add_hook (p : Project) (h : Hook) : Project :=
  mkProject (base_addr p) (sda_base p) (sda2_base p) (symbols p) (hooks p ++ [h])
            (gecko_codetable p) (gecko_code_metadata p) (osarena_patcher p).

Definition hook_branch (p : Project) (addr : Z) (sym_name : string) (LK : bool) : Project :=
  add_hook p (new_hook (BranchHook sym_name LK) addr).

Definition hook_branchlink (p : Project) (addr : Z) (sym_name : string) : Project :=
  hook_branch p addr sym_name true.

Definition hook_pointer (p : Project) (addr : Z) (sym_name : string) : Project :=
  add_hook p (new_hook (PointerHook sym_name) addr).


Definition hook_file (p : Project) (addr : Z) (filepath : string) (start : Z)
  (end_ max_size : option Z) : Project :=
  add_hook p (new_hook (FileHook filepath start end_ max_size) addr).

Definition hook_immediate16 (p : Project) (addr : Z) (sym_name modifier : string) : Project :=
  add_hook p (new_hook (Immediate16Hook sym_name modifier) addr).

Definition hook_immediate12 (p : Project) (addr w i : Z) (sym_name modifier : string)
  : Project :=
  add_hook p (new_hook (Immediate12Hook w i sym_name modifier) addr).

Definition set_sda_bases (p : Project) (sda_base sda2_base : option Z) : Project :=
  mkProject (base_addr p) sda_base sda2_base (symbols p) (hooks p)
            (gecko_codetable p) (gecko_code_metadata p) (osarena_patcher p).

(** The deprecated methods: self.message_flags (twelve entries, initially
    0) and the notices printed. *)
Definition dq : string := String (ascii_of_nat 34) EmptyString.

Definition list_set (l : list bool) (k : nat) (v : bool) : list bool :=
  firstn k l ++ v :: skipn (S k) l.

Definition deprecated (k : nat) (old new : string) (f : Project -> Project)
  (st : Project * list bool) : Project * list bool * list string :=
  let '(p, message_flags) := st in
  if nth k message_flags false then (f p, message_flags, [])
  else (f p, list_set message_flags k true,
        [(dq ++ old ++ dq ++ " is a deprecated method.  Please use " ++ dq ++ new ++ dq
          ++ " instead.")%string]).

Definition add_branch (st : Project * list bool) (addr : Z) (sym_name : string) (LK : bool) :=
  deprecated 6 "add_branch" "hook_branch" (fun p => hook_branch p addr sym_name LK) st.

Definition add_branchlink (st : Project * list bool) (addr : Z) (sym_name : string) :=
  deprecated 7 "add_branchlink" "hook_branchlink" (fun p => hook_branchlink p addr sym_name) st.

Definition add_pointer (st : Project * list bool) (addr : Z) (sym_name : string) :=
  deprecated 8 "add_pointer" "hook_pointer" (fun p => hook_pointer p addr sym_name) st.


Definition add_immediate16 (st : Project * list bool) (addr : Z) (sym_name modifier : string) :=
  deprecated 10 "add_immediate16" "hook_immediate16"
    (fun p => hook_immediate16 p addr sym_name modifier) st.

Definition add_immediate12 (st : Project * list bool) (addr w i : Z) (sym_name modifier : string) :=
  deprecated 11 "add_immediate12" "hook_immediate12"
    (fun p => hook_immediate12 p addr w i sym_name modifier) st.

(** The message of StringHook.resolve's length check: printed exactly when
    a max_strlen is given and the terminated string is longer. *)
Definition string_exceeds_warning (str : string) (max_strlen : option Z) : bool :=
  match max_strlen with
  | None => false
  | Some m => zlen (encode str ++ [0]) >? m
  end.

(* ------------------------------------------------------------------ *)
(** * The toolchain steps: __compile, __compileplusplus, __assemble,
      __link_project and __build_project.  A step yields the argument
      list it passes to subprocess.call. *)

Definition compile_args (t : Toolchain) (infile : string) (flags : list string)
  (use_global_flags : bool) : list string :=
  let args :=
    match compiler t with
    | Compiler.DevkitPPC =>
        [(devkitppc_path t ++ "powerpc-eabi-gcc")%string; "-c"; (src_dir t ++ infile)%string;
         "-o"; (obj_dir t ++ infile ++ ".o")%string; "-I"; src_dir t]
    | Compiler.CodeWarrior =>
        [(codewarrior_path t ++ "mwcceppc")%string; "-lang"; "c"; "-c";
         (src_dir t ++ infile)%string; "-o"; (obj_dir t ++ infile ++ ".o")%string; "-i"; src_dir t]
    end in
  args ++ (if use_global_flags then c_flags t else []) ++ flags.

Definition compileplusplus_args (t : Toolchain) (infile : string) (flags : list string)
  (use_global_flags : bool) : list string :=
  let args :=
    match compiler t with
    | Compiler.DevkitPPC =>
        [(devkitppc_path t ++ "powerpc-eabi-g++")%string; "-c"; (src_dir t ++ infile)%string;
         "-o"; (obj_dir t ++ infile ++ ".o")%string; "-I"; src_dir t]
    | Compiler.CodeWarrior =>
        [(codewarrior_path t ++ "mwcceppc")%string; "-lang"; "c++"; "-c";
         (src_dir t ++ infile)%string; "-o"; (obj_dir t ++ infile ++ ".o")%string; "-i"; src_dir t]
    end in
  args ++ (if use_global_flags then cpp_flags t else []) ++ flags.

Definition assemble_args (t : Toolchain) (infile : string) (flags : list string)
  (use_global_flags : bool) : list string :=
  let args :=
    match assembler t with
    | Assembler.DevkitPPC =>
        [(devkitppc_path t ++ "powerpc-eabi-as")%string; (src_dir t ++ infile)%string;
         "-o"; (obj_dir t ++ infile ++ ".o")%string; "-I"; src_dir t]
    | Assembler.CodeWarrior =>
        [(codewarrior_path t ++ "mwasmeppc")%string; "-c"; (src_dir t ++ infile)%string;
         "-o"; (obj_dir t ++ infile ++ ".o")%string; "-i"; src_dir t]
    end in
  args ++ (if use_global_flags then asm_flags t else []) ++ flags.

(** One source step: the call it makes and the object entry it records
    (self.obj_files.append((infile+".o", True))). *)
Definition source_step (args_of : Toolchain -> string -> list string -> bool -> list string)
  (acc : Toolchain * list (list string) * bool) (e : string * list string * bool)
  : Toolchain * list (list string) * bool :=
  let '(t, calls, is_built) := acc in
  let '(infile, flags, use_global_flags) := e in
  (with_obj_files t (obj_files t ++ [((infile ++ ".o")%string, true)]),
   calls ++ [args_of t infile flags use_global_flags],
   orb is_built true).

(** __link_project.  Its object-file loop and the -Map argument sit inside
    the CodeWarrior branch. *)
Definition link_args (t : Toolchain) : list string :=
  let out := (obj_dir t ++ project_name t ++ ".o")%string in
  let args :=
    match linker t with
    | Linker.DevkitPPC => [(devkitppc_path t ++ "powerpc-eabi-ld")%string; "-o"; out]
    | Linker.CodeWarrior =>
        [(codewarrior_path t ++ "mwldeppc")%string; "-o"; out]
          ++ map (fun e => (obj_dir t ++ fst e)%string) (obj_files t)
          ++ ["-Map"; (obj_dir t ++ project_name t ++ ".map")%string]
    end in
  args ++ linker_flags t.

Definition link_project (base_addr : option Z) (t : Toolchain) : result (list string) :=
  match base_addr with
  | None => raise (RuntimeError "Base address not set!  New code cannot be linked.")
  | Some _ => ret (link_args t)
  end.

(** __build_project after its two os.makedirs calls (lines 704-722): the
    toolchain after it, the calls made in order and its return value.
    __process_project returns True; its effect on the symbol table is
    [process_symbols]. *)
Definition build_project (base_addr : option Z) (t : Toolchain)
  : result (Toolchain * list (list string) * bool) :=
  let acc := fold_left (source_step compile_args) (c_files t) (t, [], false) in
  let acc := fold_left (source_step compileplusplus_args) (cpp_files t) acc in
  let '(t3, calls, is_built) := fold_left (source_step assemble_args) (asm_files t) acc in
  if is_built then
    let! args := link_project base_addr t3 in
    ret (t3, calls ++ [args], true)
  else ret (t3, calls, false).


(* ------------------------------------------------------------------ *)
(** * Project.cleanup and try_remove, over the set of existing files *)

Definition try_remove (files : list string) (filepath : string) : list string * bool :=
  if existsb (String.eqb filepath) files
  then (filter (fun f => negb (String.eqb f filepath)) files, true)
  else (files, false).

Definition cleanup (t : Toolchain) (p : Project) (files : list string)
  : Toolchain * Project * list string :=
  let files1 := fold_left (fun fs (e : string * bool) =>
                             let '(filename, do_cleanup) := e in
                             if do_cleanup then fst (try_remove fs (obj_dir t ++ filename)%string)
                             else fs) (obj_files t) files in
  let files2 := fst (try_remove files1 (obj_dir t ++ project_name t ++ ".o")%string) in
  let files3 := fst (try_remove files2 (obj_dir t ++ project_name t ++ ".bin")%string) in
  let files4 := fst (try_remove files3 (obj_dir t ++ project_name t ++ ".map")%string) in
  (with_obj_files t [],
   mkProject (base_addr p) (sda_base p) (sda2_base p) [] (hooks p) (gecko_codetable p) []
             (osarena_patcher p),
   files4).

(* ------------------------------------------------------------------ *)
(** * Project.build_gecko *)

(** The lines of the Gecko text file: literal lines, a code's as_text(),
    the Program Data WriteString and a hook's command. *)
Inductive gecko_text : Type :=
| GLine (s : string)
| GCodeText (c : GeckoCode)
| GProgramData (datablob : list Z) (base : option Z)
| GCommand (l : gecko_line).

(** for hook in self.hooks: hook.resolve(self.symbols); hook.write_geckocommand(f) *)
Fixpoint gecko_hooks (hs : list Hook) (syms : symtab) (fs : filesystem)
  : result (list Hook * list gecko_text) :=
  match hs with
  | [] => ret ([], [])
  | h :: rest =>
      let! h1 := resolve h syms fs in
      let '(h2, ls) := write_geckocommand h1 in
      let! r := gecko_hooks rest syms fs in
      ret (h2 :: fst r, map GCommand ls ++ snd r)
  end.

(** Project.build_gecko.  [elf] is what __process_project reads from the
    linked object: the contents of project.bin and the non-local symbols. *)
Definition build_gecko (p : Project) (t : Toolchain) (elf : list Z * symtab) (fs : filesystem)
  : result (Toolchain * Project * list gecko_text) :=
  let! r := build_project (base_addr p) t in
  let '(t1, _, is_processed) := r in
  let syms := if is_processed then process_symbols p (snd elf) else symbols p in
  let datablob := if is_processed then fst elf else [] in
  let codes := flat_map (fun c => if enabled c
                                  then [GLine ("* " ++ code_name c)%string; GCodeText c]
                                  else []) (gecko_codetable p) in
  let program_data := match datablob with
                      | [] => []
                      | _ => [GLine "* Program Data"; GProgramData datablob (base_addr p)]
                      end in
  let! hr := gecko_hooks (hooks p) syms fs in
  ret (t1,
       mkProject (base_addr p) (sda_base p) (sda2_base p) syms (fst hr) (gecko_codetable p)
                 (gecko_code_metadata p) (osarena_patcher p),
       [GLine "[Gecko]"; GLine ("$" ++ project_name t)%string] ++ codes ++ program_data
         ++ [GLine "* Hooks"] ++ snd hr).

(* ------------------------------------------------------------------ *)
(** * Project.save_map: the Gecko part of the symbol map *)

(** A map line: a section header, an UNUSED line (size, code name, index),
    a symbol line (offset from the base, size, virtual address, code name,
    index) and the final dummy symbol. *)
Inductive map_line : Type :=
| MHeader (section_name : string)
| MUnused (size : Z) (name : string) (i : Z)
| MEntry (offset size vaddr : Z) (name : string) (i : Z)
| MDummy.

(** The inner loop over a code's command metadata; [i] counts every entry.
    cmd_vaddr - self.base_addr raises TypeError when the base is None. *)
Fixpoint map_commands (base_addr : option Z) (name : string) (i : Z) (cmds : list cmd_metadata)
  : result (list map_line) :=
  match cmds with
  | [] => ret []
  | (cmd_vaddr, cmd_size, cmd_status, cmd) :: rest =>
      let! here :=
        if is_asm_insert (codetype_of cmd) then
          if String.eqb cmd_status "OMITTED" then ret [MUnused cmd_size name i]
          else match base_addr with
               | Some b => ret [MEntry (cmd_vaddr - b) cmd_size cmd_vaddr name i]
               | None => raise TypeError
               end
        else ret [] in
      let! more := map_commands base_addr name (i + 1) rest in
      ret (here ++ more)
  end.

Fixpoint map_codes (base_addr : option Z) (meta : list code_metadata) : result (list map_line) :=
  match meta with
  | [] => ret []
  | (_, _, _, c, cmds) :: rest =>
      let! here := map_commands base_addr (code_name c) 0 cmds in
      let! more := map_codes base_addr rest in
      ret (here ++ more)
  end.

(** save_map after the ELF symbols ([elf_lines], empty when the object
    cannot be opened). *)
Definition save_map (base_addr : option Z) (elf_lines : list map_line)
  (meta : list code_metadata) : result (list map_line) :=
  let! gecko := match meta with
                | [] => ret []
                | _ => let! ls := map_codes base_addr meta in ret (MHeader ".text" :: ls)
                end in
  ret (elf_lines ++ gecko ++ [MHeader ".dummy"; MDummy]).

(** Bytes a relocated inline-assembly command adds to the blob:
    value[:-4] and a 4-byte branch. *)
Definition fragment_size (cmd : GeckoCommand) : Z :=
  zlen (drop_last4 (value cmd)) + 4.

Fixpoint asm_fragments_size (cmds : list GeckoCommand) : Z :=
  match cmds with
  | [] => 0
  | cmd :: rest =>
      (if is_asm_insert (codetype_of cmd) then fragment_size cmd else 0)
        + asm_fragments_size rest
  end.

(* ------------------------------------------------------------------ *)
(** * Lemmas on the image model *)

Lemma write_at_other : forall bs m a x,
  x < a -> write_at m a bs x = m x.
Proof.
  induction bs as [|b bs IH]; intros m a x Hx; simpl; [reflexivity|].
  rewrite IH by lia. destruct (Z.eqb_spec x a); [lia|reflexivity].
Qed.

Lemma read_write_at : forall bs m a,
  read_at (write_at m a bs) a (List.length bs) = bs.
Proof.
  induction bs as [|b bs IH]; intros m a; simpl; [reflexivity|].
  rewrite write_at_other by lia. rewrite Z.eqb_refl. f_equal. apply IH.
Qed.

Lemma length_be32 : forall w, List.length (be32 w) = 4%nat.
Proof. reflexivity. Qed.

Lemma length_assemble_branch : forall a t lk, List.length (assemble_branch a t lk) = 4%nat.
Proof. reflexivity. Qed.

(* ------------------------------------------------------------------ *)
(** * Relocation of OMITTED codes (the part of C1 the code keeps) *)

Lemma relocate_commands_omitted : forall cmds vaddress dol gb md,
  exists md',
    fold_left (relocate_command "OMITTED" vaddress) cmds (dol, gb, md) = (dol, gb, md ++ md')
    /\ Forall (fun e : cmd_metadata => let '(v, _, _, _) := e in v = 0) md'.
Proof.
  induction cmds as [|c cmds IH]; intros vaddress dol gb md; simpl.
  - exists []. rewrite app_nil_r. split; [reflexivity|constructor].
  - destruct (is_asm_insert (codetype_of c)).
    + destruct (IH vaddress dol gb (md ++ [(0, zlen (value c), "OMITTED", c)]))
        as [md' [Hf Hall]].
      exists ((0, zlen (value c), "OMITTED", c) :: md'). rewrite Hf, <- app_assoc.
      split; [reflexivity|]. constructor; [reflexivity|exact Hall].
    + apply IH.
Qed.

(* ------------------------------------------------------------------ *)
(** * C1 *)

(** C1 (code_bug).  A disabled code is still relocated: its status is
    "DISABLED", which the guard (testing "UNUSED" or "OMITTED") lets through,
    so build_dol writes a branch at the command's origin, appends the
    fragment to the blob and records a non-zero placement address. *)
Theorem C1_disabled_code_is_relocated :
  let '(b, _, dol1, blob, meta) :=
    relocation_stage (project_of [disabled_code]) one_section_image None in
  code_status disabled_code = "DISABLED" /\ b = 0x80004000 /\
  read_at (mem one_section_image) 0x80003000 4 = [0; 0; 0; 0] /\
  read_at (mem dol1) 0x80003000 4 = assemble_branch 0x80003000 0x80004000 false /\
  blob = [0x60; 0; 0; 0] ++ assemble_branch 0x80004004 0x80003004 false /\
  meta = [(0x80004000, 8, "DISABLED", disabled_code,
           [(0x80004000, 8, "DISABLED", asm_command)])].
Proof. vm_compute. repeat split. Qed.

(** An OMITTED code leaves the image and the blob as they are and records
    its inline-assembly commands at placement address 0. *)
Lemma relocate_code_omitted : forall b dol blob meta c,
  code_status c = "OMITTED" ->
  exists meta' cmd_md,
    relocate_code b (dol, blob, meta) c = (dol, blob, meta ++ meta')
    /\ Forall (fun e : cmd_metadata => let '(v, _, _, _) := e in v = 0) cmd_md
    /\ (meta' = [] \/ meta' = [(b + zlen blob, 0, "OMITTED", c, cmd_md)]).
Proof.
  intros b dol blob meta c Hst. unfold relocate_code. rewrite Hst.
  destruct (relocate_commands_omitted (commands c) (b + zlen blob) dol [] [])
    as [md' [Hf Hall]].
  rewrite Hf. simpl. exists (match md' with [] => [] | _ => [(b + zlen blob, 0, "OMITTED", c, md')] end), md'.
  rewrite app_nil_r. destruct md' as [|e md'].
  - rewrite !app_nil_r. split; [reflexivity|]. split; [constructor|left; reflexivity].
  - split; [reflexivity|]. split; [exact Hall|right; reflexivity].
Qed.

(* ------------------------------------------------------------------ *)
(** * C2 *)

Lemma zlen_app : forall {A} (l1 l2 : list A), zlen (l1 ++ l2) = zlen l1 + zlen l2.
Proof. intros. unfold zlen. rewrite length_app. lia. Qed.

Lemma zlen_nonneg : forall {A} (l : list A), 0 <= zlen l.
Proof. intros. unfold zlen. lia. Qed.

(** One code grows the blob by its fragments, placed at the base address
    plus the blob's length so far. *)
Lemma relocate_code_shape : forall b dol blob meta c,
  exists dol' gb m,
    relocate_code b (dol, blob, meta) c = (dol', blob ++ gb, meta ++ m)
    /\ (m = [] \/ exists st cm, m = [(b + zlen blob, zlen gb, st, c, cm)]).
Proof.
  intros b dol blob meta c. unfold relocate_code.
  destruct (fold_left _ _ _) as [[dol' gb] cmd_md].
  exists dol', gb. destruct cmd_md as [|e cmd_md].
  - exists []. rewrite app_nil_r. split; [reflexivity|left; reflexivity].
  - eexists. split; [reflexivity|right; eauto].
Qed.

Lemma relocate_table_layout : forall b table dol blob0 meta0 dol1 blob1 meta1,
  relocate_table b table (dol, blob0, meta0) = (dol1, blob1, meta1) ->
  exists rest new,
    blob1 = blob0 ++ rest /\ meta1 = meta0 ++ new /\
    Forall (fun e : code_metadata => let '(v, n, _, _, _) := e in
              b + zlen blob0 <= v /\ v + n <= b + zlen blob1) new.
Proof.
  unfold relocate_table.
  induction table as [|c table IH]; intros dol blob0 meta0 dol1 blob1 meta1 H; cbn [fold_left] in H.
  - inversion H; subst. exists [], []. rewrite !app_nil_r. repeat split; constructor.
  - destruct (relocate_code_shape b dol blob0 meta0 c) as [dol' [gb [m [Hc Hm]]]].
    rewrite Hc in H. apply IH in H as [rest [new [Hb [Hmeta Hall]]]].
    exists (gb ++ rest), (m ++ new). rewrite <- !app_assoc in *.
    split; [exact Hb|]. split; [exact Hmeta|].
    apply Forall_app. split.
    + destruct Hm as [-> | [st [cm ->]]]; [constructor|].
      constructor; [|constructor]. subst blob1. rewrite !zlen_app.
      pose proof (zlen_nonneg rest). lia.
    + eapply Forall_impl; [|exact Hall]. intros [[[[v n] st] cd] cm] [H1 H2].
      rewrite zlen_app in H1. pose proof (zlen_nonneg gb). lia.
Qed.

Lemma code_status_values : forall c,
  code_status c = "ENABLED" \/ code_status c = "DISABLED" \/ code_status c = "OMITTED".
Proof.
  intros c. unfold code_status. destruct (enabled c); [|right; left; reflexivity].
  assert (H : forall cmds st, st = "ENABLED" \/ st = "OMITTED" ->
    let r := fold_left (fun st cmd => if supported (codetype_of cmd) then st else "OMITTED")
                       cmds st in r = "ENABLED" \/ r = "OMITTED").
  { induction cmds as [|x xs IH]; intros st Hst; simpl; [exact Hst|].
    apply IH. destruct (supported (codetype_of x)); [exact Hst|right; reflexivity]. }
  destruct (H (commands c) "ENABLED" (or_introl eq_refl)) as [E|E]; rewrite E; auto.
Qed.

Lemma relocate_commands_blob : forall s v cmds dol gb md dol' gb' md',
  s <> "UNUSED" ->
  fold_left (relocate_command s v) cmds (dol, gb, md) = (dol', gb', md') ->
  gb' = gb ++ (if String.eqb s "OMITTED" then [] else expected_fragments (v + zlen gb) cmds).
Proof.
  intros s v. induction cmds as [|cmd cmds IH]; intros dol gb md dol' gb' md' Hs H.
  - simpl in H. injection H as _ <- _. destruct (String.eqb s "OMITTED"); rewrite app_nil_r; reflexivity.
  - cbn [fold_left] in H. unfold relocate_command at 2 in H. cbn [expected_fragments].
    destruct (is_asm_insert (codetype_of cmd)) eqn:Ha.
    + destruct (String.eqb s "OMITTED") eqn:Eo.
      * rewrite orb_true_r in H. apply IH in H; [|exact Hs]. exact H.
      * apply String.eqb_neq in Hs. rewrite Hs in H. cbn [orb] in H.
        apply IH in H; [|apply String.eqb_neq; exact Hs]. rewrite H.
        rewrite <- !app_assoc. f_equal. f_equal.
        assert (Hz : forall a t lk, zlen (assemble_branch a t lk) = 4)
          by (intros; unfold zlen; rewrite length_assemble_branch; reflexivity).
        rewrite !zlen_app, Hz. f_equal; f_equal; lia.
    + apply IH in H; [|exact Hs]. exact H.
Qed.

Lemma relocate_commands_md : forall s v cmds dol gb md dol' gb' md',
  fold_left (relocate_command s v) cmds (dol, gb, md) = (dol', gb', md') ->
  exists new, md' = md ++ new /\
    (new = [] <-> existsb (fun cmd => is_asm_insert (codetype_of cmd)) cmds = false).
Proof.
  intros s v. induction cmds as [|cmd cmds IH]; intros dol gb md dol' gb' md' H.
  - simpl in H. injection H as _ _ <-. exists []. rewrite app_nil_r. split; [reflexivity|tauto].
  - cbn [fold_left] in H. unfold relocate_command at 2 in H. cbn [existsb].
    destruct (is_asm_insert (codetype_of cmd)) eqn:Ha.
    + destruct (String.eqb s "UNUSED" || String.eqb s "OMITTED");
        apply IH in H as [new [Hm _]]; rewrite <- app_assoc in Hm;
        eexists; (split; [exact Hm|]); simpl; split; discriminate.
    + apply IH in H as [new [Hm Hn]]. exists new. split; [exact Hm|exact Hn].
Qed.

Lemma relocate_code_eq : forall b dol blob meta c dol' blob' meta',
  relocate_code b (dol, blob, meta) c = (dol', blob', meta') ->
  blob' = blob ++ code_blob b blob c /\
  exists m, meta' = meta ++ m /\
    map (fun e : code_metadata => let '(v, _, _, _, _) := e in v) m =
    (if existsb (fun cmd => is_asm_insert (codetype_of cmd)) (commands c)
     then [b + zlen blob] else []).
Proof.
  intros b dol blob meta c dol' blob' meta' H. unfold relocate_code in H.
  destruct (fold_left (relocate_command (code_status c) (b + zlen blob)) (commands c)
              (dol, [], [])) as [[d g] cmd_md] eqn:E.
  assert (Hu : code_status c <> "UNUSED")
    by (destruct (code_status_values c) as [-> | [-> | ->]]; discriminate).
  pose proof (relocate_commands_blob _ _ _ _ _ _ _ _ _ Hu E) as Hg.
  destruct (relocate_commands_md _ _ _ _ _ _ _ _ _ E) as [new [Hm Hn]].
  simpl in Hg, Hm. subst g new. injection H as _ <- <-.
  split; [unfold code_blob; rewrite Z.add_0_r; reflexivity|].
  destruct cmd_md as [|e cmd_md].
  - exists []. rewrite app_nil_r. split; [reflexivity|].
    replace (existsb _ (commands c)) with false by (symmetry; apply Hn; reflexivity). reflexivity.
  - eexists. split; [reflexivity|].
    replace (existsb _ (commands c)) with true; [reflexivity|].
    destruct (existsb _ (commands c)) eqn:Ex; [reflexivity|].
    destruct Hn as [_ Hn]. specialize (Hn eq_refl). discriminate.
Qed.

Lemma relocate_table_blob : forall b table dol blob meta dol' blob' meta',
  relocate_table b table (dol, blob, meta) = (dol', blob', meta') ->
  blob' = blob ++ code_fragments b blob table /\
  exists new, meta' = meta ++ new /\
    map (fun e : code_metadata => let '(v, _, _, _, _) := e in v) new =
    code_placements b blob table.
Proof.
  intros b table. unfold relocate_table.
  induction table as [|c table IH]; intros dol blob meta dol' blob' meta' H.
  - simpl in H. injection H as _ <- <-. rewrite !app_nil_r. split; [reflexivity|].
    exists []. rewrite app_nil_r. split; reflexivity.
  - cbn [fold_left] in H.
    destruct (relocate_code b (dol, blob, meta) c) as [[d1 blob1] meta1] eqn:E1.
    destruct (relocate_code_eq _ _ _ _ _ _ _ _ E1) as [Hb1 [m [Hm1 Hv1]]].
    destruct (IH _ _ _ _ _ _ H) as [Hb2 [new [Hm2 Hv2]]].
    subst blob1 meta1. split.
    + rewrite Hb2. cbn [code_fragments]. rewrite <- app_assoc. reflexivity.
    + exists (m ++ new). split; [rewrite Hm2, app_assoc; reflexivity|].
      rewrite map_app, Hv1, Hv2. reflexivity.
Qed.

(** C2 (counterexample).  With a compiled project binary of 4 bytes, the
    blob starts with that binary at the base address and the fragment of
    an enabled code is placed at base + 4, not at the base address. *)
Lemma C2_fragments_follow_project_binary :
  let '(b, _, _, blob, meta) :=
    relocation_stage (project_of [enabled_code]) one_section_image
                     (Some ([1; 2; 3; 4], [])) in
  b = 0x80004000 /\ firstn 4 blob = [1; 2; 3; 4] /\
  map (fun e : code_metadata => let '(v, _, _, _, _) := e in v) meta = [0x80004004] /\
  0x80004004 <> b.
Proof. vm_compute. repeat split; discriminate. Qed.

(** C2 (amended).  The blob build_dol appends is the compiled project
    binary zero-padded to a multiple of 4 (nothing when nothing was
    compiled), followed by exactly the fragments of the Gecko loop: each
    code's fragments in code-table order, placed at the base address plus
    the blob length reached so far (every code with a C2/F2 command
    records that address), and nothing after them.  Every metadata entry
    the loop adds lies after the padded binary and inside the blob. *)
Theorem C2_blob_layout : forall p dol built b syms dol1 blob meta,
  relocation_stage p dol built = (b, syms, dol1, blob, meta) ->
  let bin := match built with Some (bin, _) => pad4 bin | None => [] end in
  exists rest new,
    blob = bin ++ rest /\ meta = gecko_code_metadata p ++ new /\
    Forall (fun e : code_metadata => let '(v, n, _, _, _) := e in
              b + zlen bin <= v /\ v + n <= b + zlen blob) new /\
    rest = code_fragments b bin (gecko_codetable p) /\
    map (fun e : code_metadata => let '(v, _, _, _, _) := e in v) new =
      code_placements b bin (gecko_codetable p).
Proof.
  intros p dol built b syms dol1 blob meta H. unfold relocation_stage in H.
  destruct (relocate_table _ _ _) as [[dol1' blob'] meta'] eqn:Hr.
  inversion H; subst. cbv zeta.
  destruct (relocate_table_layout _ _ _ _ _ _ _ _ Hr) as [rest [new [Hb [Hm Hall]]]].
  destruct (relocate_table_blob _ _ _ _ _ _ _ _ Hr) as [Hb' [new' [Hm' Hv]]].
  exists rest, new. split; [exact Hb|]. split; [exact Hm|]. split; [exact Hall|].
  rewrite Hb in Hb'. rewrite Hm in Hm'.
  apply app_inv_head in Hb'. apply app_inv_head in Hm'. subst new'.
  split; [exact Hb'|exact Hv].
Qed.

(* ------------------------------------------------------------------ *)
(** * C3 *)

(** C3 (counterexample).  A String hook refers to no symbol: resolving it
    against the empty symbol table sets its payload, and apply_dol then
    writes it into the image and marks the hook applied. *)
Lemma C3_string_hook_resolves_without_symbols :
  match resolve (new_hook (StringHook "A" "ascii" None) 0x80003000) [] (fun _ => None) with
  | inr h =>
      data h = PBytes [65; 0] /\
      match apply_dol h one_section_image with
      | inr (h', dol') =>
          good h' = true /\
          read_at (mem one_section_image) 0x80003000 2 = [0; 0] /\
          read_at (mem dol') 0x80003000 2 = [65; 0]
      | inl _ => False
      end
  | inl _ => False
  end.
Proof. vm_compute. repeat split. Qed.

Lemma write_in_section_mapped : forall dol a n,
  write_in_section dol a n = true -> is_mapped dol a = true.
Proof.
  intros dol a n H. unfold write_in_section in H.
  destruct (find _ (sections dol)) as [s|] eqn:E; [|discriminate].
  apply find_some in E as [Hin Hs]. unfold is_mapped. apply existsb_exists.
  exists s. split; assumption.
Qed.

(** C3 (amended).  String and File hooks refer to no symbol: resolving one
    gives the same outcome whatever the symbol table holds, a hook made by
    the project resolves to a byte payload, and apply_dol writes those bytes
    at the hook's address and marks it good when they lie in the section
    holding that address.  For the variants that refer to a symbol (Branch,
    Pointer, Immediate16, Immediate12), resolving against a table lacking
    that name raises nothing and leaves the hook as it was; a hook created
    by the project starts with no payload, and apply_dol on a hook without
    payload leaves the image and the hook unchanged. *)
Theorem C3_missing_symbol_leaves_hook_unresolved :
  (forall h syms syms' fs,
     hook_sym_name (kind h) = None ->
     resolve h syms fs = resolve h syms' fs) /\
  (forall k a syms fs h1,
     hook_sym_name k = None -> resolve (new_hook k a) syms fs = inr h1 ->
     exists bs, data h1 = PBytes bs) /\
  (forall h dol bs,
     hook_sym_name (kind h) = None -> data h = PBytes bs ->
     write_in_section dol (addr h) (zlen bs) = true ->
     exists dol', apply_dol h dol = inr (set_good h, dol') /\
                  read_at (mem dol') (addr h) (List.length bs) = bs) /\
  (forall h name syms fs dol,
     hook_sym_name (kind h) = Some name ->
     sym_lookup syms name = None ->
     resolve h syms fs = inr h /\
     data (new_hook (kind h) (addr h)) = PNone /\
     (data h = PNone -> apply_dol h dol = inr (h, dol))).
Proof.
  split; [|split; [|split]].
  - intros [k a g d] syms syms' fs Hk; simpl in *.
    destruct k; simpl in Hk; try discriminate; reflexivity.
  - intros k a syms fs h1 Hk Hr.
    destruct k; simpl in Hk; try discriminate; unfold resolve in Hr; cbn [kind new_hook] in Hr.
    + injection Hr as <-. eexists. reflexivity.
    + destruct (fs filepath); injection Hr as <-; eexists; reflexivity.
  - intros [k a g d] dol bs Hk Hd Hw; simpl in *. subst d.
    apply write_in_section_mapped in Hw.
    destruct k; simpl in Hk; try discriminate; unfold apply_dol; cbn [kind data addr];
      rewrite Hw; eexists; (split; [reflexivity|]);
      unfold dol_write, dol_seek; cbn [mem pos]; apply read_write_at.
  - intros [k a g d] name syms fs dol Hk Hl; simpl in *.
    destruct k; simpl in Hk; try discriminate; injection Hk as <-;
      unfold resolve, apply_dol; simpl; rewrite Hl;
      (split; [reflexivity|split; [reflexivity|intros ->; reflexivity]]).
Qed.

(* ------------------------------------------------------------------ *)
(** * C4 *)

(** An image whose text-section table is full (seven text sections). *)
Definition full_text_image : DolFile :=
  mkDol (map (fun k => mkSection (0x80003000 + 0x100 * k) 0x100) [0; 1; 2; 3; 4; 5; 6])
        [] (fun _ => 0) 0.

(** C4 (code_bug).  The capacity test is [len <= Max] instead of
    [len < Max]: with all seven text sections in use and every data section
    free, build_dol's append step still adds an eighth text section. *)
Theorem C4_full_text_table_gets_text_section :
  zlen (textSections full_text_image) = MaxTextSections /\
  zlen (dataSections full_text_image) < MaxDataSections /\
  append_blob full_text_image 0x80004000 [0; 0; 0; 0]
    = ret (append_text_section full_text_image 0x80004000 [0; 0; 0; 0]) /\
  zlen (textSections (append_text_section full_text_image 0x80004000 [0; 0; 0; 0]))
    = MaxTextSections + 1.
Proof. vm_compute. repeat split. Qed.

(** When the append step raises, it returns no image at all: the failure
    leaves nothing appended. *)
Lemma append_blob_full_raises : forall dol b blob,
  zlen blob > 0 ->
  zlen (textSections dol) > MaxTextSections ->
  zlen (dataSections dol) > MaxDataSections ->
  append_blob dol b blob = raise (RuntimeError "DOL is full!  Cannot allocate any new sections.").
Proof.
  intros dol b blob H1 H2 H3. unfold append_blob.
  replace (zlen blob >? 0) with true by (symmetry; apply Z.gtb_lt; lia).
  replace (zlen (textSections dol) <=? MaxTextSections) with false
    by (symmetry; apply Z.leb_gt; lia).
  replace (zlen (dataSections dol) <=? MaxDataSections) with false
    by (symmetry; apply Z.leb_gt; lia).
  reflexivity.
Qed.

(* ------------------------------------------------------------------ *)
(** * Bit-level lemmas *)

Ltac bits_cases :=
  repeat match goal with
  | |- context [?a <=? ?b] => destruct (Z.leb_spec a b)
  | |- context [?a <? ?b] => destruct (Z.ltb_spec a b)
  | |- context [Z.eqb ?a ?b] => destruct (Z.eqb_spec a b)
  end; try (exfalso; lia); simpl;
  rewrite ?andb_true_r, ?andb_false_r, ?orb_false_r, ?orb_false_l, ?orb_true_r.

(** The halfword Immediate12Hook.resolve assembles from the masked value
    [m] and the caller's [i] and [w]. *)
Definition imm12_pack (m i w : Z) : Z :=
  Z.lor (Z.lor (mask_field m 12 true) (Z.shiftl (mask_field i 1 false) 12))
        (Z.shiftl (mask_field w 3 false) 13).

Lemma imm12_pack_low : forall m i w, Z.land (imm12_pack m i w) (Z.ones 12) = Z.land m (Z.ones 12).
Proof.
  intros m i w. unfold imm12_pack, mask_field. apply Z.bits_inj'; intros n Hn.
  rewrite !Z.land_spec, !Z.lor_spec, !Z.shiftl_spec, !Z.land_spec, !Z.testbit_ones by lia.
  bits_cases; reflexivity.
Qed.

Lemma imm12_pack_i : forall m i w,
  Z.land (Z.shiftr (imm12_pack m i w) 12) (Z.ones 1) = Z.land i (Z.ones 1).
Proof.
  intros m i w. unfold imm12_pack, mask_field. apply Z.bits_inj'; intros n Hn.
  rewrite !Z.land_spec, Z.shiftr_spec, !Z.lor_spec, !Z.shiftl_spec, !Z.land_spec,
    !Z.testbit_ones by lia.
  bits_cases; try reflexivity. replace (n + 12 - 12) with n by lia. reflexivity.
Qed.

Lemma imm12_pack_w : forall m i w,
  Z.land (Z.shiftr (imm12_pack m i w) 13) (Z.ones 3) = Z.land w (Z.ones 3).
Proof.
  intros m i w. unfold imm12_pack, mask_field. apply Z.bits_inj'; intros n Hn.
  rewrite !Z.land_spec, Z.shiftr_spec, !Z.lor_spec, !Z.shiftl_spec, !Z.land_spec,
    !Z.testbit_ones by lia.
  bits_cases; try reflexivity. replace (n + 13 - 13) with n by lia. reflexivity.
Qed.

Lemma imm12_pack_range : forall m i w, 0 <= imm12_pack m i w < 2 ^ 16.
Proof.
  intros m i w.
  assert (E : Z.land (imm12_pack m i w) (Z.ones 16) = imm12_pack m i w).
  { unfold imm12_pack, mask_field. apply Z.bits_inj'; intros n Hn.
    rewrite !Z.land_spec, !Z.lor_spec, !Z.shiftl_spec, !Z.land_spec, !Z.testbit_ones by lia.
    bits_cases; reflexivity. }
  rewrite <- E, Z.land_ones by lia. apply Z.mod_pos_bound. lia.
Qed.

Lemma decode_imm12_pack : forall m i w,
  decode_imm12 (imm12_pack m i w) = (Z.land m 0xFFF, Z.land i 1, Z.land w 7).
Proof.
  intros m i w. unfold decode_imm12.
  pose proof (imm12_pack_low m i w). pose proof (imm12_pack_i m i w).
  pose proof (imm12_pack_w m i w).
  change (Z.ones 12) with 0xFFF in *. change (Z.ones 1) with 1 in *.
  change (Z.ones 3) with 7 in *. congruence.
Qed.

Lemma lor_high_bit : forall x, 0 <= x < 2 ^ 31 -> Z.lor x 0x80000000 = x + 0x80000000.
Proof.
  intros x Hx. change 0x80000000 with (2 ^ 31).
  rewrite Z.add_nocarry_lxor, Z.lxor_lor; [reflexivity| |];
  (apply Z.bits_inj'; intros n Hn; rewrite Z.land_spec, Z.pow2_bits_eqb, Z.bits_0 by lia;
   destruct (Z.eqb_spec 31 n); [subst; rewrite <- (Z.mod_small x (2 ^ 31)) by lia;
   rewrite Z.mod_pow2_bits_high by lia; reflexivity | apply andb_false_r]).
Qed.

Lemma land_align32 : forall x, 0 <= x < 2 ^ 32 -> Z.land x 0xFFFFFFE0 = x / 32 * 32.
Proof.
  intros x Hx. change 0xFFFFFFE0 with (Z.ldiff (Z.ones 32) (Z.ones 5)).
  replace (x / 32 * 32) with (Z.shiftl (Z.shiftr x 5) 5)
    by (rewrite Z.shiftl_mul_pow2, Z.shiftr_div_pow2 by lia; reflexivity).
  rewrite <- Z.ldiff_ones_r by lia.
  apply Z.bits_inj'; intros n Hn.
  rewrite Z.land_spec, !Z.ldiff_spec, !Z.testbit_ones by lia.
  bits_cases; try reflexivity.
  rewrite <- (Z.mod_small x (2 ^ 32)) by lia. rewrite Z.mod_pow2_bits_high by lia.
  reflexivity.
Qed.

Lemma sign_extend_mod : forall n x, 1 <= n -> - 2 ^ (n - 1) <= x < 2 ^ (n - 1) ->
  sign_extend (x mod 2 ^ n) n = x.
Proof.
  intros n x Hn Hx. unfold sign_extend. rewrite Z.land_ones by lia.
  rewrite Z.mod_mod by lia.
  assert (Hp : 2 ^ n = 2 ^ (n - 1) * 2).
  { rewrite Z.mul_comm, <- Z.pow_succ_r by lia. f_equal. lia. }
  assert (Hpos : 0 < 2 ^ (n - 1)) by (apply Z.pow_pos_nonneg; lia).
  pose proof (Z.testbit_spec' (x mod 2 ^ n) (n - 1) ltac:(lia)) as Hb.
  pose proof (Z.div_mod x (2 ^ n) ltac:(lia)) as Hd.
  pose proof (Z.mod_pos_bound x (2 ^ n) ltac:(lia)) as Hm.
  assert (Hq1 : x / 2 ^ n < 1) by (apply Z.div_lt_upper_bound; lia).
  assert (Hq0 : -1 <= x / 2 ^ n) by (apply Z.div_le_lower_bound; lia).
  remember (x mod 2 ^ n) as r. remember (x / 2 ^ n) as q.
  pose proof (Z.div_mod r (2 ^ (n - 1)) ltac:(lia)) as Hd2.
  pose proof (Z.mod_pos_bound r (2 ^ (n - 1)) ltac:(lia)) as Hm2.
  assert (Hr0 : 0 <= r / 2 ^ (n - 1)) by (apply Z.div_pos; lia).
  assert (Hr1 : r / 2 ^ (n - 1) < 2) by (apply Z.div_lt_upper_bound; lia).
  rewrite (Z.mod_small (r / 2 ^ (n - 1)) 2) in Hb by lia.
  remember (2 ^ (n - 1)) as h. remember (r / h) as t. rewrite Hp in *.
  assert (Hq : q = -1 \/ q = 0) by lia.
  assert (Ht : t = 0 \/ t = 1) by lia.
  destruct (Z.testbit r (n - 1)); simpl in Hb;
    destruct Hq as [-> | ->], Ht as [-> | ->]; lia.
Qed.

(* ------------------------------------------------------------------ *)
(** * C5 *)

Lemma code_status_enabled : forall c,
  enabled c = true ->
  forallb (fun cmd => supported (codetype_of cmd)) (commands c) = true ->
  code_status c = "ENABLED".
Proof.
  intros c He Hs. unfold code_status. rewrite He.
  generalize "ENABLED" as st. intros st.
  induction (commands c) as [|x xs IH] in st, Hs |- *; simpl in *; [reflexivity|].
  apply andb_prop in Hs as [Hx Hxs]. rewrite Hx. apply IH, Hxs.
Qed.

Lemma zlen_firstn_sub4 : forall bs : list Z,
  (4 <= List.length bs)%nat -> zlen (firstn (List.length bs - 4) bs) = zlen bs - 4.
Proof.
  intros bs H. unfold zlen. rewrite length_firstn. lia.
Qed.

(** C5.  Relocating an inline-assembly command of an enabled code whose
    commands are all supported: the image at the origin O holds a branch
    from O to the placement address p, the fragment appended to the code's
    blob is P[0:L-4] followed by a branch from p+L-4 back to O+4, and the
    recorded metadata is (p, L, status, command). *)
Theorem C5_asm_insert_relocation : forall c cmd vaddress dol gb md,
  enabled c = true ->
  forallb (fun x => supported (codetype_of x)) (commands c) = true ->
  In cmd (commands c) ->
  is_asm_insert (codetype_of cmd) = true ->
  0 <= _address cmd -> _address cmd + 4 < 2 ^ 31 ->
  (4 <= List.length (value cmd))%nat ->
  let O := Z.lor (_address cmd) 0x80000000 in
  let p := vaddress + zlen gb in
  let L := zlen (value cmd) in
  let '(dol', gb', md') := relocate_command (code_status c) vaddress (dol, gb, md) cmd in
  read_at (mem dol') O 4 = assemble_branch O p false /\
  gb' = gb ++ firstn (List.length (value cmd) - 4) (value cmd)
           ++ assemble_branch (p + L - 4) (O + 4) false /\
  md' = md ++ [(p, L, code_status c, cmd)].
Proof.
  intros c cmd vaddress dol gb md He Hs _ Ha H0 H4 HL O p L.
  rewrite (code_status_enabled c He Hs). unfold relocate_command. rewrite Ha.
  replace (String.eqb "ENABLED" "UNUSED" || String.eqb "ENABLED" "OMITTED")%bool
    with false by reflexivity.
  split; [|split].
  - unfold write_branch, dol_write, dol_seek. cbn [mem pos].
    rewrite <- (length_assemble_branch (Z.lor (_address cmd) 0x80000000)
                  (vaddress + zlen gb) false).
    apply read_write_at.
  - rewrite <- app_assoc. unfold drop_last4. f_equal. f_equal. f_equal.
    + rewrite zlen_app, zlen_firstn_sub4 by exact HL. unfold p, L. lia.
    + unfold O. rewrite !lor_high_bit by lia. lia.
  - reflexivity.
Qed.

(** Reassembling the four bytes of [be32 w] gives back [w]. *)
Lemma be32_roundtrip : forall w, 0 <= w < 2 ^ 32 ->
  Z.lor (Z.shiftl (Z.land (Z.shiftr w 24) 255) 24)
    (Z.lor (Z.shiftl (Z.land (Z.shiftr w 16) 255) 16)
       (Z.lor (Z.shiftl (Z.land (Z.shiftr w 8) 255) 8) (Z.land w 255))) = w.
Proof.
  intros w Hw. change 255 with (Z.ones 8).
  apply Z.bits_inj'; intros n Hn.
  rewrite !Z.lor_spec, !Z.shiftl_spec, !Z.land_spec, !Z.testbit_ones by lia.
  repeat match goal with
  | |- context [Z.testbit (Z.shiftr ?a ?k) ?m] =>
      destruct (Z.leb_spec 0 m);
      [rewrite (Z.shiftr_spec a k m) by lia | rewrite (Z.testbit_neg_r (Z.shiftr a k) m) by lia]
  end;
  rewrite ?Z.sub_add; bits_cases; try reflexivity;
  rewrite <- (Z.mod_small w (2 ^ 32)) by lia; rewrite Z.mod_pow2_bits_high by lia; reflexivity.
Qed.

(** The instruction word assemble_branch encodes. *)
Definition branch_word (d : Z) (lk : bool) : Z :=
  Z.lor (Z.lor 0x48000000 (Z.land d 0x03FFFFFC)) (if lk then 1 else 0).

Ltac branch_bits lk :=
  unfold branch_word; change 0x48000000 with (Z.lor (2 ^ 30) (2 ^ 27));
  change 0x03FFFFFC with (Z.ldiff (Z.ones 26) (Z.ones 2));
  destruct lk; [change 1 with (2 ^ 0) | ].

Lemma branch_word_fields : forall d lk,
  0 <= branch_word d lk < 2 ^ 32 /\
  Z.shiftr (branch_word d lk) 26 = 18 /\
  Z.testbit (branch_word d lk) 1 = false /\
  Z.testbit (branch_word d lk) 0 = lk /\
  Z.land (branch_word d lk) 0x03FFFFFC = Z.land d 0x03FFFFFC.
Proof.
  intros d lk. split; [|split; [|split; [|split]]].
  - assert (E : Z.land (branch_word d lk) (Z.ones 32) = branch_word d lk).
    { branch_bits lk; apply Z.bits_inj'; intros n Hn;
      rewrite !Z.land_spec, !Z.lor_spec, ?Z.land_spec, ?Z.ldiff_spec, !Z.testbit_ones,
        !Z.pow2_bits_eqb, ?Z.bits_0 by lia; bits_cases; reflexivity. }
    rewrite <- E, Z.land_ones by lia. apply Z.mod_pos_bound. lia.
  - change 18 with (Z.lor (2 ^ 4) (2 ^ 1)).
    branch_bits lk; apply Z.bits_inj'; intros n Hn;
      rewrite Z.shiftr_spec, !Z.lor_spec, ?Z.land_spec, ?Z.ldiff_spec, !Z.testbit_ones,
        !Z.pow2_bits_eqb, ?Z.bits_0 by lia; bits_cases; reflexivity.
  - branch_bits lk; rewrite !Z.lor_spec, ?Z.land_spec, ?Z.ldiff_spec, !Z.testbit_ones,
        !Z.pow2_bits_eqb, ?Z.bits_0 by lia; bits_cases; reflexivity.
  - branch_bits lk; rewrite !Z.lor_spec, ?Z.land_spec, ?Z.ldiff_spec, !Z.testbit_ones,
        !Z.pow2_bits_eqb, ?Z.bits_0 by lia; bits_cases; reflexivity.
  - branch_bits lk; apply Z.bits_inj'; intros n Hn;
      rewrite !Z.land_spec, !Z.lor_spec, ?Z.land_spec, ?Z.ldiff_spec, !Z.testbit_ones,
        !Z.pow2_bits_eqb, ?Z.bits_0 by lia; bits_cases; reflexivity.
Qed.

Lemma land_branch_field : forall d, d mod 4 = 0 -> Z.land d 0x03FFFFFC = d mod 2 ^ 26.
Proof.
  intros d Hd. change 0x03FFFFFC with (Z.ldiff (Z.ones 26) (Z.ones 2)).
  apply Z.bits_inj'; intros n Hn.
  rewrite Z.land_spec, Z.ldiff_spec, !Z.testbit_ones by lia.
  destruct (Z.ltb_spec n 26).
  - rewrite Z.mod_pow2_bits_low by lia.
    destruct (Z.ltb_spec n 2); bits_cases; try reflexivity.
    change 4 with (2 ^ 2) in Hd.
    rewrite <- (Z.mod_pow2_bits_low d 2 n) by lia. rewrite Hd. symmetry. apply Z.bits_0.
  - rewrite Z.mod_pow2_bits_high by lia. bits_cases; reflexivity.
Qed.

(** The branch written by the relocator reaches its target whenever the
    word displacement fits the 24-bit field. *)
Lemma decode_assemble_branch : forall pc target lk,
  0 <= target < 2 ^ 32 ->
  (target - pc) mod 4 = 0 -> - 2 ^ 25 <= target - pc < 2 ^ 25 ->
  decode_branch pc (assemble_branch pc target lk) = Some (target, lk).
Proof.
  intros pc target lk Ht H4 Hr.
  change (assemble_branch pc target lk) with (be32 (branch_word (target - pc) lk)).
  destruct (branch_word_fields (target - pc) lk) as [Hw [Hs [H1 [H0 Hl]]]].
  unfold decode_branch, be32. cbv beta iota zeta.
  rewrite be32_roundtrip by exact Hw. rewrite Hs, H1, H0, Hl. cbn -[Z.modulo Z.pow Z.add sign_extend].
  rewrite land_branch_field by exact H4.
  rewrite sign_extend_mod by lia. f_equal. f_equal.
  replace (pc + (target - pc)) with target by lia. apply Z.mod_small. exact Ht.
Qed.

(* ------------------------------------------------------------------ *)
(** * C6 *)

(** C6.  When an Immediate12Hook's symbol is present and resolution
    returns, the modifier chain produced an integer [d] and the payload is a
    halfword whose bits 0-11 are [d] masked to 12 bits, bit 12 is [i]
    masked to 1 bit and bits 13-15 are [w] masked to 3 bits. *)
Theorem C6_imm12_fields : forall h w i name modifier syms fs h',
  kind h = Immediate12Hook w i name modifier ->
  sym_lookup syms name <> None ->
  resolve h syms fs = inr h' ->
  exists d p,
    imm_modifier modifier name syms (data h) = inr (PInt d) /\
    data h' = PInt p /\
    decode_imm12 p = (Z.land d 0xFFF, Z.land i 1, Z.land w 7) /\
    0 <= p < 2 ^ 16.
Proof.
  intros h w i name modifier syms fs h' Hk Hs Hr. unfold resolve in Hr. rewrite Hk in Hr.
  destruct (sym_lookup syms name) as [v|]; [|contradiction].
  destruct (imm_modifier modifier name syms (data h)) as [e|[|d|bs]];
    simpl in Hr; try discriminate.
  injection Hr as <-. exists d, (imm12_pack d i w).
  split; [reflexivity|]. split; [reflexivity|].
  split; [apply decode_imm12_pack|apply imm12_pack_range].
Qed.

(* ------------------------------------------------------------------ *)
(** * C7 *)

Lemma mask16_mod : forall x, mask_field x 16 true = x mod 2 ^ 16.
Proof. intros x. unfold mask_field. apply Z.land_ones. lia. Qed.

Lemma imm12_pack_mask16 : forall x i w,
  imm12_pack (mask_field x 16 true) i w = imm12_pack x i w.
Proof.
  intros x i w. unfold imm12_pack, mask_field at 1 2.
  rewrite <- Z.land_assoc. reflexivity.
Qed.

(** C7 (counterexample).  For an Immediate12Hook the @sda offset keeps only
    12 bits: with A - B = 0x1000 and i = w = 0 the payload is 0, not the
    16-bit encoding 0x1000 of A - B. *)
Lemma C7_imm12_sda_keeps_12_bits :
  resolve (new_hook (Immediate12Hook 0 0 "Foo" "@sda") 0x80003000)
          [("Foo", Some 0x80009000); ("_SDA_BASE_", Some 0x80008000)] (fun _ => None)
  = inr (mkHook (Immediate12Hook 0 0 "Foo" "@sda") 0x80003000 false (PInt 0))
  /\ (0x80009000 - 0x80008000) mod 2 ^ 16 = 0x1000.
Proof. vm_compute. split; reflexivity. Qed.

(** C7 (amended).  With the @sda (or @sda2) modifier, a symbol at address A
    and a configured base B, an Immediate16Hook resolves to (A - B) masked
    to 16 bits, which reads back as A - B as a signed 16-bit quantity when
    A - B fits; an Immediate12Hook keeps the low 12 bits of that value and
    packs i and w above them.  When the base's entry is None, resolution
    raises RuntimeError. *)
Theorem C7_sda_offset : forall (sda2 : bool) name syms fs A h16 h12 w i,
  let modifier := if sda2 then "@sda2" else "@sda" in
  let base := if sda2 then "_SDA2_BASE_" else "_SDA_BASE_" in
  kind h16 = Immediate16Hook name modifier ->
  kind h12 = Immediate12Hook w i name modifier ->
  sym_lookup syms name = Some (Some A) ->
  (forall B, sym_lookup syms base = Some (Some B) ->
     resolve h16 syms fs = inr (set_data h16 (PInt ((A - B) mod 2 ^ 16))) /\
     (- 2 ^ 15 <= A - B < 2 ^ 15 -> sign_extend ((A - B) mod 2 ^ 16) 16 = A - B) /\
     resolve h12 syms fs = inr (set_data h12 (PInt (imm12_pack (A - B) i w)))) /\
  (sym_lookup syms base = Some None ->
     (exists msg, resolve h16 syms fs = inl (RuntimeError msg)) /\
     (exists msg, resolve h12 syms fs = inl (RuntimeError msg))).
Proof.
  intros sda2 name syms fs A h16 h12 w i modifier base H16 H12 HA.
  unfold resolve. rewrite H16, H12, HA. split.
  - intros B HB. split; [|split].
    + unfold modifier, imm_modifier, st_value.
      destruct sda2; simpl; unfold base in HB; rewrite HB, HA; simpl;
        rewrite !mask16_mod, Z.mod_mod by lia; reflexivity.
    + intros Hr. apply sign_extend_mod; simpl; lia.
    + unfold modifier, imm_modifier, st_value.
      destruct sda2; simpl; unfold base in HB; rewrite HB, HA; simpl;
        rewrite <- imm12_pack_mask16; reflexivity.
  - intros HB. unfold modifier, imm_modifier, st_value.
    destruct sda2; simpl; unfold base in HB; rewrite HB; simpl; split; eexists; reflexivity.
Qed.

(* ------------------------------------------------------------------ *)
(** * C8 *)

(** C8 (code_bug).  An unknown modifier only prints a message, and then the
    unconditional [self.data = mask_field(self.data, ...)] masks None: the
    resolution of an Immediate16Hook or Immediate12Hook with modifier "@x"
    and a present symbol raises TypeError. *)
Theorem C8_unknown_modifier_raises :
  resolve (new_hook (Immediate16Hook "Foo" "@x") 0x80003000)
          [("Foo", Some 0x80005000)] (fun _ => None) = inl TypeError /\
  resolve (new_hook (Immediate12Hook 0 0 "Foo" "@x") 0x80003000)
          [("Foo", Some 0x80005000)] (fun _ => None) = inl TypeError.
Proof. vm_compute. split; reflexivity. Qed.

(* ------------------------------------------------------------------ *)
(** * C9 *)

Definition section_end (s : Section) : Z := address s + size s.

Lemma rom_end_fold : forall l r0,
  let r := fold_left (fun rom_end s => if address s + size s >? rom_end
                                       then address s + size s else rom_end) l r0 in
  r0 <= r /\ (forall t, In t l -> section_end t <= r) /\
  (r = r0 \/ exists t, In t l /\ r = section_end t).
Proof.
  induction l as [|s l IH]; intros r0; simpl.
  - split; [lia|]. split; [intros t []|left; reflexivity].
  - set (r1 := if address s + size s >? r0 then address s + size s else r0).
    assert (Hr1 : r0 <= r1 /\ section_end s <= r1 /\ (r1 = r0 \/ r1 = section_end s)).
    { unfold r1, section_end. destruct (Z.gtb_spec (address s + size s) r0); lia. }
    destruct (IH r1) as [Hle [Hall Hor]]. split; [lia|]. split.
    + intros t [<- | Ht]; [lia|]. apply Hall, Ht.
    + destruct Hor as [-> | [t [Ht ->]]].
      * destruct Hr1 as [_ [_ [-> | ->]]]; [left; reflexivity|right; exists s; auto].
      * right. exists t. auto.
Qed.

Lemma find_rom_end_max : forall dol s,
  In s (sections dol) ->
  (forall t, In t (sections dol) -> section_end t <= section_end s) ->
  0x80000000 <= section_end s ->
  find_rom_end dol = section_end s.
Proof.
  intros dol s Hin Hmax Hlo. unfold find_rom_end.
  destruct (rom_end_fold (sections dol) 0x80000000) as [Hle [Hall Hor]].
  pose proof (Hall s Hin).
  destruct Hor as [E | [t [Ht E]]]; rewrite E in *; [lia|].
  pose proof (Hmax t Ht). lia.
Qed.

(** C9.  With no configured base address, when the section reaching
    highest ends at E (at or above 0x80000000, with E + 31 below 2^32),
    build_dol's base address is the smallest multiple of 32 at or above E,
    and no alignment warning is printed. *)
Theorem C9_auto_base_addr : forall dol s,
  In s (sections dol) ->
  (forall t, In t (sections dol) -> section_end t <= section_end s) ->
  0x80000000 <= section_end s ->
  section_end s + 31 < 2 ^ 32 ->
  let '(b, warn) := choose_base_addr None dol in
  b mod 32 = 0 /\ section_end s <= b /\
  (forall m, m mod 32 = 0 -> section_end s <= m -> b <= m) /\
  warn = false.
Proof.
  intros dol s Hin Hmax Hlo Hhi. unfold choose_base_addr.
  rewrite (find_rom_end_max dol s Hin Hmax Hlo).
  rewrite land_align32 by lia.
  set (E := section_end s) in *.
  pose proof (Z.div_mod (E + 31) 32 ltac:(lia)) as Hd.
  pose proof (Z.mod_pos_bound (E + 31) 32 ltac:(lia)) as Hm.
  assert (Hb : (E + 31) / 32 * 32 mod 32 = 0) by (apply Z.mod_mul; lia).
  split; [exact Hb|]. split; [lia|]. split.
  - intros m Hm32 HEm.
    pose proof (Z.div_mod m 32 ltac:(lia)) as Hdm. lia.
  - rewrite Hb. reflexivity.
Qed.

(* ------------------------------------------------------------------ *)
(** * C10 *)

(** C10.  A Branch, Pointer, Immediate16 or Immediate12 hook whose payload
    is the integer 0 is treated like one with no payload: apply_dol leaves
    the image and the hook (its [good] flag) unchanged and
    write_geckocommand emits nothing, exactly as for the unresolved hook. *)
Theorem C10_zero_payload_not_applied : forall h name dol,
  hook_sym_name (kind h) = Some name ->
  data h = PInt 0 ->
  apply_dol h dol = inr (h, dol) /\
  write_geckocommand h = (h, []) /\
  apply_dol (set_data h PNone) dol = inr (set_data h PNone, dol) /\
  write_geckocommand (set_data h PNone) = (set_data h PNone, []).
Proof.
  intros [k a g d] name dol Hk Hd; simpl in *; subst d.
  destruct k; simpl in Hk; try discriminate; repeat split.
Qed.

(* ------------------------------------------------------------------ *)
(** * Witnesses: the theorems at concrete inputs *)

Definition no_files : filesystem := fun _ => None.

Lemma C2_blob_layout_witness :
  match relocation_stage (project_of [enabled_code]) one_section_image
          (Some ([1; 2; 3; 4], [])) with
  | (b, syms, dol1, blob, meta) =>
      exists rest new,
        blob = pad4 [1; 2; 3; 4] ++ rest /\ meta = [] ++ new /\
        Forall (fun e : code_metadata => let '(v, n, _, _, _) := e in
                  b + zlen (pad4 [1; 2; 3; 4]) <= v /\ v + n <= b + zlen blob) new /\
        rest = code_fragments b (pad4 [1; 2; 3; 4]) [enabled_code] /\
        map (fun e : code_metadata => let '(v, _, _, _, _) := e in v) new =
          code_placements b (pad4 [1; 2; 3; 4]) [enabled_code]
  end.
Proof.
  destruct (relocation_stage (project_of [enabled_code]) one_section_image
              (Some ([1; 2; 3; 4], []))) as [[[[b syms] dol1] blob] meta] eqn:E.
  exact (C2_blob_layout _ _ _ _ _ _ _ _ E).
Defined.

Definition branch_hook_foo : Hook := new_hook (BranchHook "Foo" false) 0x80003000.

Definition string_hook_hi : Hook := new_hook (StringHook "Hi" "ascii" None) 0x80003000.
Definition string_hook_hi_resolved : Hook := set_data string_hook_hi (PBytes [72; 105; 0]).

Lemma C3_missing_symbol_leaves_hook_unresolved_witness :
  resolve string_hook_hi [] no_files = resolve string_hook_hi [("Bar", Some 0x80005000)] no_files /\
  (exists bs, data string_hook_hi_resolved = PBytes bs) /\
  (exists dol', apply_dol string_hook_hi_resolved one_section_image
                  = inr (set_good string_hook_hi_resolved, dol') /\
                read_at (mem dol') 0x80003000 3 = [72; 105; 0]) /\
  (hook_sym_name (kind branch_hook_foo) = Some "Foo" /\
   sym_lookup [("Bar", Some 0x80005000)] "Foo" = None /\
   (resolve branch_hook_foo [("Bar", Some 0x80005000)] no_files = inr branch_hook_foo /\
    data (new_hook (kind branch_hook_foo) (addr branch_hook_foo)) = PNone /\
    (data branch_hook_foo = PNone ->
     apply_dol branch_hook_foo one_section_image = inr (branch_hook_foo, one_section_image)))).
Proof.
  destruct C3_missing_symbol_leaves_hook_unresolved as [H1 [H2 [H3 H4]]].
  split; [apply H1; reflexivity|].
  split.
  { apply (H2 (StringHook "Hi" "ascii" None) 0x80003000 [] no_files); [reflexivity|].
    vm_compute. reflexivity. }
  split.
  { exact (H3 string_hook_hi_resolved one_section_image [72; 105; 0]
              eq_refl eq_refl ltac:(vm_compute; reflexivity)). }
  split; [reflexivity|]. split; [reflexivity|].
  apply (H4 branch_hook_foo "Foo" [("Bar", Some 0x80005000)] no_files one_section_image);
    reflexivity.
Defined.

Lemma C5_asm_insert_relocation_witness :
  enabled enabled_code = true /\
  forallb (fun x => supported (codetype_of x)) (commands enabled_code) = true /\
  In asm_command (commands enabled_code) /\
  is_asm_insert (codetype_of asm_command) = true /\
  0 <= _address asm_command /\ _address asm_command + 4 < 2 ^ 31 /\
  (4 <= List.length (value asm_command))%nat /\
  let '(dol', gb', md') :=
    relocate_command (code_status enabled_code) 0x80004000 (one_section_image, [], [])
                     asm_command in
  read_at (mem dol') 0x80003000 4 = assemble_branch 0x80003000 0x80004000 false /\
  gb' = [] ++ firstn 4 (value asm_command)
           ++ assemble_branch (0x80004000 + 0 + 8 - 4) (0x80003000 + 4) false /\
  md' = [] ++ [(0x80004000 + 0, 8, code_status enabled_code, asm_command)].
Proof.
  assert (Hin : In asm_command (commands enabled_code)) by (left; reflexivity).
  split; [reflexivity|]. split; [reflexivity|]. split; [exact Hin|].
  split; [reflexivity|]. split; [simpl; lia|]. split; [simpl; lia|].
  split; [simpl; lia|].
  exact (C5_asm_insert_relocation enabled_code asm_command 0x80004000 one_section_image
           [] [] eq_refl eq_refl Hin eq_refl
           ltac:(simpl; lia) ltac:(simpl; lia) ltac:(simpl; lia)).
Defined.

Definition imm12_hook_foo : Hook := new_hook (Immediate12Hook 5 1 "Foo" "@l") 0x80003000.

Lemma C6_imm12_fields_witness :
  kind imm12_hook_foo = Immediate12Hook 5 1 "Foo" "@l" /\
  sym_lookup [("Foo", Some 0x80005123)] "Foo" <> None /\
  resolve imm12_hook_foo [("Foo", Some 0x80005123)] no_files
    = inr (mkHook (Immediate12Hook 5 1 "Foo" "@l") 0x80003000 false (PInt 0xB123)) /\
  exists d p,
    imm_modifier "@l" "Foo" [("Foo", Some 0x80005123)] (data imm12_hook_foo) = inr (PInt d) /\
    data (mkHook (Immediate12Hook 5 1 "Foo" "@l") 0x80003000 false (PInt 0xB123)) = PInt p /\
    decode_imm12 p = (Z.land d 0xFFF, Z.land 1 1, Z.land 5 7) /\
    0 <= p < 2 ^ 16.
Proof.
  split; [reflexivity|]. split; [discriminate|]. split; [vm_compute; reflexivity|].
  apply (C6_imm12_fields imm12_hook_foo 5 1 "Foo" "@l" [("Foo", Some 0x80005123)] no_files
           (mkHook (Immediate12Hook 5 1 "Foo" "@l") 0x80003000 false (PInt 0xB123)));
    [reflexivity|discriminate|vm_compute; reflexivity].
Defined.

Definition sda_syms : symtab :=
  [("Foo", Some 0x80009010); ("_SDA_BASE_", Some 0x80008000)].

Definition sda_hook16 : Hook := new_hook (Immediate16Hook "Foo" "@sda") 0x80003000.

Definition sda_hook12 : Hook := new_hook (Immediate12Hook 2 1 "Foo" "@sda") 0x80003004.

Lemma C7_sda_offset_witness :
  kind sda_hook16 = Immediate16Hook "Foo" "@sda" /\
  kind sda_hook12 = Immediate12Hook 2 1 "Foo" "@sda" /\
  sym_lookup sda_syms "Foo" = Some (Some 0x80009010) /\
  sym_lookup sda_syms "_SDA_BASE_" = Some (Some 0x80008000) /\
  (resolve sda_hook16 sda_syms no_files
     = inr (set_data sda_hook16 (PInt ((0x80009010 - 0x80008000) mod 2 ^ 16))) /\
   (- 2 ^ 15 <= 0x80009010 - 0x80008000 < 2 ^ 15 ->
    sign_extend ((0x80009010 - 0x80008000) mod 2 ^ 16) 16 = 0x80009010 - 0x80008000) /\
   resolve sda_hook12 sda_syms no_files
     = inr (set_data sda_hook12 (PInt (imm12_pack (0x80009010 - 0x80008000) 1 2)))).
Proof.
  split; [reflexivity|]. split; [reflexivity|]. split; [reflexivity|].
  split; [reflexivity|].
  apply (proj1 (C7_sda_offset false "Foo" sda_syms no_files 0x80009010
                  sda_hook16 sda_hook12 2 1 eq_refl eq_refl eq_refl)).
  reflexivity.
Defined.

Lemma C9_auto_base_addr_witness :
  In (mkSection 0x80003000 0x1000) (sections one_section_image) /\
  (forall t, In t (sections one_section_image) ->
     section_end t <= section_end (mkSection 0x80003000 0x1000)) /\
  0x80000000 <= section_end (mkSection 0x80003000 0x1000) /\
  section_end (mkSection 0x80003000 0x1000) + 31 < 2 ^ 32 /\
  (let '(b, warn) := choose_base_addr None one_section_image in
   b mod 32 = 0 /\ section_end (mkSection 0x80003000 0x1000) <= b /\
   (forall m, m mod 32 = 0 -> section_end (mkSection 0x80003000 0x1000) <= m -> b <= m) /\
   warn = false) /\
  choose_base_addr None one_section_image = (0x80004000, false).
Proof.
  assert (Hin : In (mkSection 0x80003000 0x1000) (sections one_section_image))
    by (left; reflexivity).
  assert (Hmax : forall t, In t (sections one_section_image) ->
                   section_end t <= section_end (mkSection 0x80003000 0x1000)).
  { intros t [<- | []]. lia. }
  split; [exact Hin|]. split; [exact Hmax|].
  split; [unfold section_end; simpl; lia|]. split; [unfold section_end; simpl; lia|].
  split.
  - apply (C9_auto_base_addr one_section_image (mkSection 0x80003000 0x1000) Hin Hmax);
      unfold section_end; simpl; lia.
  - vm_compute. reflexivity.
Defined.

Definition lo_hook_foo : Hook := new_hook (Immediate16Hook "Foo" "@l") 0x80003000.

Definition lo_hook_resolved : Hook :=
  mkHook (Immediate16Hook "Foo" "@l") 0x80003000 false (PInt 0).

Lemma C10_zero_payload_not_applied_witness :
  resolve lo_hook_foo [("Foo", Some 0x80010000)] no_files = inr lo_hook_resolved /\
  hook_sym_name (kind lo_hook_resolved) = Some "Foo" /\
  data lo_hook_resolved = PInt 0 /\
  (apply_dol lo_hook_resolved one_section_image = inr (lo_hook_resolved, one_section_image) /\
   write_geckocommand lo_hook_resolved = (lo_hook_resolved, []) /\
   apply_dol (set_data lo_hook_resolved PNone) one_section_image
     = inr (set_data lo_hook_resolved PNone, one_section_image) /\
   write_geckocommand (set_data lo_hook_resolved PNone)
     = (set_data lo_hook_resolved PNone, [])).
Proof.
  split; [vm_compute; reflexivity|]. split; [reflexivity|]. split; [reflexivity|].
  apply (C10_zero_payload_not_applied lo_hook_resolved "Foo" one_section_image);
    reflexivity.
Defined.

(* ------------------------------------------------------------------ *)
(** * Further properties: hooks *)

(** An Immediate hook's modifier chain either ignores [data] (a known
    modifier) or returns it unchanged (an unknown one). *)
Lemma imm_modifier_cases : forall modifier name syms d d2,
  imm_modifier modifier name syms d2 = imm_modifier modifier name syms d \/
  (imm_modifier modifier name syms d = ret d /\ imm_modifier modifier name syms d2 = ret d2).
Proof.
  intros modifier name syms d d2. unfold imm_modifier.
  destruct (String.eqb modifier "@h"); [left; reflexivity|].
  destruct (String.eqb modifier "@l"); [left; reflexivity|].
  destruct (String.eqb modifier "@ha"); [left; reflexivity|].
  destruct (String.eqb modifier "@sda"); [left; reflexivity|].
  destruct (String.eqb modifier "@sda2"); [left; reflexivity|].
  right. split; reflexivity.
Qed.

Lemma mask_field_idem : forall z n s s', 0 <= n ->
  mask_field (mask_field z n s) n s' = mask_field z n s.
Proof.
  intros z n s s' Hn. unfold mask_field. rewrite <- Z.land_assoc, Z.land_diag. reflexivity.
Qed.

Lemma imm12_expr_pack : forall m i w,
  Z.lor (Z.lor (mask_field m 12 true) (Z.shiftl (mask_field i 1 false) 12))
        (Z.shiftl (mask_field w 3 false) 13) = imm12_pack m i w.
Proof. reflexivity. Qed.

Lemma mask12_imm12_pack : forall m i w,
  mask_field (imm12_pack m i w) 12 true = mask_field m 12 true.
Proof. intros m i w. unfold mask_field at 1 2. apply imm12_pack_low. Qed.

(** Hook.resolve is idempotent: resolving a hook that resolve returned,
    against the same symbols and files, gives it back unchanged. *)
Theorem resolve_idempotent : forall h syms fs h1,
  resolve h syms fs = inr h1 -> resolve h1 syms fs = inr h1.
Proof.
  intros h syms fs h1 H. unfold resolve in H |- *.
  destruct (kind h) as [name lk|name|s enc mx|path st en mx|name modifier|w i name modifier]
    eqn:Hk.
  - destruct (sym_lookup syms name) eqn:Hl; injection H as <-; simpl;
      rewrite Hk; [rewrite Hl; reflexivity|rewrite Hl; reflexivity].
  - destruct (sym_lookup syms name) eqn:Hl; injection H as <-; simpl;
      rewrite Hk; [rewrite Hl; reflexivity|rewrite Hl; reflexivity].
  - injection H as <-. simpl. rewrite Hk. reflexivity.
  - destruct (fs path) eqn:Hf; injection H as <-; simpl; rewrite Hk, Hf; reflexivity.
  - destruct (sym_lookup syms name) eqn:Hl; [|injection H as <-; rewrite Hk, Hl; reflexivity].
    destruct (imm_modifier modifier name syms (data h)) as [e|[|z|bs]] eqn:Hm;
      cbn [bind py_mask_field ret raise] in H; try discriminate.
    injection H as <-. cbn [kind set_data data]. rewrite Hk, Hl.
    destruct (imm_modifier_cases modifier name syms (data h) (PInt (mask_field z 16 true)))
      as [E | [E1 E2]].
    + rewrite E, Hm. reflexivity.
    + rewrite E2. cbn [bind py_mask_field ret]. rewrite mask_field_idem by lia. reflexivity.
  - destruct (sym_lookup syms name) eqn:Hl; [|injection H as <-; rewrite Hk, Hl; reflexivity].
    destruct (imm_modifier modifier name syms (data h)) as [e|[|z|bs]] eqn:Hm;
      cbn [bind py_mask_field ret raise] in H; try discriminate.
    rewrite imm12_expr_pack in H.
    injection H as <-. cbn [kind set_data data]. rewrite Hk, Hl.
    destruct (imm_modifier_cases modifier name syms (data h) (PInt (imm12_pack z i w)))
      as [E | [E1 E2]].
    + rewrite E, Hm. cbn [bind py_mask_field ret]. rewrite imm12_expr_pack. reflexivity.
    + rewrite E2. cbn [bind py_mask_field ret]. rewrite mask12_imm12_pack, imm12_expr_pack.
      reflexivity.
Qed.

Lemma mask_field_range : forall z n s, 0 <= n -> 0 <= mask_field z n s < 2 ^ n.
Proof.
  intros z n s Hn. unfold mask_field. rewrite Z.land_ones by lia.
  apply Z.mod_pos_bound. apply Z.pow_pos_nonneg; lia.
Qed.

Ltac split_ifs_ret :=
  repeat match goal with |- context [if ?b then _ else _] => destruct b end;
  do 2 eexists; reflexivity.

(** A hook made by its constructor and resolved makes apply_dol raise
    neither a TypeError nor a struct.error, provided a PointerHook's symbol
    value fits in 32 bits and the bytes written lie in the section holding
    the hook's address (4 for Branch and Pointer, 2 for the Immediate
    hooks, the payload for String and File): the Immediate payloads are
    masked to 16 bits, String and File payloads are bytes, and a Branch
    payload is an integer or None. *)
Theorem apply_dol_after_resolve : forall k a syms fs dol h1,
  resolve (new_hook k a) syms fs = inr h1 ->
  (forall name v, k = PointerHook name -> sym_lookup syms name = Some (Some v) ->
                  0 <= v < 2 ^ 32) ->
  write_in_section dol a (payload_width h1) = true ->
  exists h2 dol2, apply_dol h1 dol = inr (h2, dol2).
Proof.
  intros k a syms fs dol h1 Hr Hp _.
  destruct k as [name lk|name|s enc mx|path st en mx|name modifier|w i name modifier];
    unfold resolve in Hr; cbn [kind new_hook data] in Hr.
  - destruct (sym_lookup syms name) as [[t|]|]; injection Hr as <-; unfold apply_dol;
      cbn [kind set_data data new_hook truthy andb addr];
      split_ifs_ret.
  - destruct (sym_lookup syms name) as [[v|]|] eqn:Hl; injection Hr as <-; unfold apply_dol;
      cbn [kind set_data data new_hook truthy andb addr]; [|split_ifs_ret|split_ifs_ret].
    specialize (Hp name v eq_refl Hl). unfold write_uint32.
    replace ((0 <=? v) && (v <? 2 ^ 32)) with true
      by (symmetry; apply andb_true_iff; split; [apply Z.leb_le|apply Z.ltb_lt]; lia).
    split_ifs_ret.
  - injection Hr as <-. unfold apply_dol. cbn [kind set_data data addr]. split_ifs_ret.
  - destruct (fs path); injection Hr as <-; unfold apply_dol;
      cbn [kind set_data data new_hook addr]; split_ifs_ret.
  - destruct (sym_lookup syms name);
      [|injection Hr as <-; unfold apply_dol; cbn [kind data new_hook truthy andb]; split_ifs_ret].
    destruct (imm_modifier modifier name syms PNone) as [e|[|z|bs]];
      cbn [bind py_mask_field ret raise] in Hr; try discriminate.
    injection Hr as <-. unfold apply_dol. cbn [kind set_data data addr].
    pose proof (mask_field_range z 16 true ltac:(lia)). unfold write_uint16.
    replace ((0 <=? mask_field z 16 true) && (mask_field z 16 true <? 2 ^ 16)) with true
      by (symmetry; apply andb_true_iff; split; [apply Z.leb_le|apply Z.ltb_lt]; lia).
    split_ifs_ret.
  - destruct (sym_lookup syms name);
      [|injection Hr as <-; unfold apply_dol; cbn [kind data new_hook truthy andb]; split_ifs_ret].
    destruct (imm_modifier modifier name syms PNone) as [e|[|z|bs]];
      cbn [bind py_mask_field ret raise] in Hr; try discriminate.
    rewrite imm12_expr_pack in Hr. injection Hr as <-. unfold apply_dol.
    cbn [kind set_data data addr].
    pose proof (imm12_pack_range z i w). unfold write_uint16.
    replace ((0 <=? imm12_pack z i w) && (imm12_pack z i w <? 2 ^ 16)) with true
      by (symmetry; apply andb_true_iff; split; [apply Z.leb_le|apply Z.ltb_lt]; lia).
    split_ifs_ret.
Qed.

(** A BranchHook whose symbol has a non-zero value [t], at an address [a]
    whose section holds the four bytes from [a]: resolve and apply_dol mark it good and leave at [a] a
    branch instruction that decodes to [t] with the hook's link bit, when
    the displacement is word aligned and fits the 24-bit field. *)
Theorem branch_hook_writes_branch : forall name lk a syms fs dol t,
  sym_lookup syms name = Some (Some t) -> t <> 0 -> write_in_section dol a 4 = true ->
  0 <= t < 2 ^ 32 -> (t - a) mod 4 = 0 -> - 2 ^ 25 <= t - a < 2 ^ 25 ->
  exists h1 h2 dol2,
    resolve (new_hook (BranchHook name lk) a) syms fs = inr h1 /\
    apply_dol h1 dol = inr (h2, dol2) /\ good h2 = true /\
    decode_branch a (read_at (mem dol2) a 4) = Some (t, lk).
Proof.
  intros name lk a syms fs dol t Hl Ht0 Hm Ht H4 Hr. apply write_in_section_mapped in Hm.
  unfold resolve. cbn [kind new_hook]. rewrite Hl.
  do 3 eexists. split; [reflexivity|]. unfold apply_dol. cbn [kind set_data data truthy addr new_hook].
  replace (negb (t =? 0)) with true by (symmetry; apply negb_true_iff, Z.eqb_neq; exact Ht0).
  rewrite Hm. split; [reflexivity|]. split; [reflexivity|].
  unfold dol_write, dol_seek. cbn [mem pos addr].
  rewrite <- (length_assemble_branch a t lk), read_write_at.
  apply decode_assemble_branch; assumption.
Qed.

(** A PointerHook whose symbol has a non-zero value [v], at an address
    whose section holds the four bytes from it: when [v] fits in 32 bits the hook is marked good and the four
    bytes at the address are [v] big-endian; otherwise write_uint32 raises
    (struct.error) out of apply_dol. *)
Theorem pointer_hook_writes_word : forall name a syms fs dol v,
  sym_lookup syms name = Some (Some v) -> v <> 0 -> write_in_section dol a 4 = true ->
  exists h1,
    resolve (new_hook (PointerHook name) a) syms fs = inr h1 /\
    ((0 <= v < 2 ^ 32 ->
      exists h2 dol2, apply_dol h1 dol = inr (h2, dol2) /\ good h2 = true /\
                      read_at (mem dol2) a 4 = be32 v) /\
     (~ (0 <= v < 2 ^ 32) -> apply_dol h1 dol = inl StructError)).
Proof.
  intros name a syms fs dol v Hl Hv0 Hm. apply write_in_section_mapped in Hm.
  unfold resolve. cbn [kind new_hook]. rewrite Hl. eexists. split; [reflexivity|].
  unfold apply_dol. cbn [kind set_data data truthy addr].
  replace (negb (v =? 0)) with true by (symmetry; apply negb_true_iff, Z.eqb_neq; exact Hv0).
  rewrite Hm. cbn [andb]. unfold write_uint32. split.
  - intros Hr.
    replace ((0 <=? v) && (v <? 2 ^ 32)) with true
      by (symmetry; apply andb_true_iff; split; [apply Z.leb_le|apply Z.ltb_lt]; lia).
    do 2 eexists. split; [reflexivity|]. split; [reflexivity|].
    unfold dol_write, dol_seek. cbn [mem pos].
    rewrite <- (length_be32 v) at 1. apply read_write_at.
  - intros Hr.
    replace ((0 <=? v) && (v <? 2 ^ 32)) with false; [reflexivity|].
    symmetry. apply andb_false_iff.
    destruct (Z.leb_spec 0 v); [right; apply Z.ltb_ge; lia|left; reflexivity].
Qed.

(** A FileHook whose file cannot be opened keeps its empty bytearray:
    apply_dol at a mapped address marks it good while leaving every byte of
    the image and its section tables as they were, and write_geckocommand
    emits a WriteString of no bytes. *)
Theorem file_hook_missing_file_marked_good : forall path start end_ max_size a syms fs dol,
  fs path = None -> is_mapped dol a = true ->
  exists h1 h2 dol2,
    resolve (new_hook (FileHook path start end_ max_size) a) syms fs = inr h1 /\
    data h1 = PBytes [] /\
    apply_dol h1 dol = inr (h2, dol2) /\ good h2 = true /\
    mem dol2 = mem dol /\ sections dol2 = sections dol /\
    write_geckocommand h1 = (set_good h1, [GWriteString (PBytes []) a]).
Proof.
  intros path start end_ max_size a syms fs dol Hf Hm.
  unfold resolve. cbn [kind new_hook]. rewrite Hf.
  do 3 eexists. split; [reflexivity|]. split; [reflexivity|].
  unfold apply_dol. cbn [kind data addr]. rewrite Hm.
  split; [reflexivity|]. repeat split.
Qed.

Lemma zlen_repeat : forall (x : Z) n, zlen (repeat x n) = Z.of_nat n.
Proof. intros. unfold zlen. rewrite repeat_length. reflexivity. Qed.

(** StringHook.resolve on an ASCII string under an ASCII-compatible
    encoding: the payload is the string's bytes, a NUL byte and zero
    padding; with a max_strlen it is padded to max(len + 1, max_strlen)
    bytes.  When the length warning is printed nothing is padded, and the
    payload written is longer than max_strlen. *)
Theorem string_hook_resolved_bytes : forall str enc max_strlen a syms fs,
  ascii_encodable str enc = true ->
  exists bs pad,
    resolve (new_hook (StringHook str enc max_strlen) a) syms fs
      = inr (set_data (new_hook (StringHook str enc max_strlen) a) (PBytes bs)) /\
    bs = encode str ++ [0] ++ pad /\ Forall (fun x => x = 0) pad /\
    zlen bs = match max_strlen with
              | None => zlen (encode str) + 1
              | Some m => Z.max (zlen (encode str) + 1) m
              end /\
    (string_exceeds_warning str max_strlen = true ->
     pad = [] /\ exists m, max_strlen = Some m /\ m < zlen bs).
Proof.
  intros str enc max_strlen a syms fs _.
  unfold resolve. cbn [kind new_hook]. unfold pad_to_max, string_exceeds_warning.
  destruct max_strlen as [m|].
  - destruct (zlen (encode str ++ [0]) >? m) eqn:Hg.
    + exists (encode str ++ [0]), []. rewrite app_nil_r. split; [reflexivity|].
      split; [reflexivity|]. split; [constructor|].
      apply Z.gtb_lt in Hg. rewrite zlen_app in *. change (zlen [0]) with 1 in *.
      split; [lia|].
      intros _. split; [reflexivity|]. exists m. split; [reflexivity|lia].
    + exists ((encode str ++ [0]) ++ repeat 0 (Z.to_nat (m - zlen (encode str ++ [0])))),
        (repeat 0 (Z.to_nat (m - zlen (encode str ++ [0])))).
      split; [reflexivity|]. split; [rewrite app_assoc; reflexivity|].
      split; [apply Forall_forall; intros x Hx; apply repeat_spec in Hx; exact Hx|].
      rewrite Z.gtb_ltb in Hg. apply Z.ltb_ge in Hg. rewrite !zlen_app, zlen_repeat in *. change (zlen [0]) with 1 in *.
      split; [lia|]. discriminate.
  - exists (encode str ++ [0]), []. rewrite app_nil_r. split; [reflexivity|].
    split; [reflexivity|]. split; [constructor|]. rewrite zlen_app.
    change (zlen [0]) with 1. split; [lia|]. discriminate.
Qed.

(* ------------------------------------------------------------------ *)
(** * Further properties: the project's tables and settings *)

Lemma sym_lookup_app : forall l1 l2 k,
  sym_lookup (l1 ++ l2) k =
  match sym_lookup l1 k with Some v => Some v | None => sym_lookup l2 k end.
Proof.
  induction l1 as [|[k1 v1] l1 IH]; intros l2 k; simpl; [reflexivity|].
  destruct (String.eqb k k1); [reflexivity|apply IH].
Qed.

Lemma sym_lookup_set : forall s k v k',
  sym_lookup (sym_set s k v) k' = if String.eqb k' k then Some v else sym_lookup s k'.
Proof.
  intros s k v k'. unfold sym_set. simpl. destruct (String.eqb k' k) eqn:E; [reflexivity|].
  induction s as [|[k1 v1] s IH]; simpl; [reflexivity|].
  destruct (String.eqb k1 k) eqn:E1; simpl.
  - apply String.eqb_eq in E1. subst k1. rewrite E. exact IH.
  - destruct (String.eqb k' k1); [reflexivity|exact IH].
Qed.

Lemma sym_lookup_fold_set : forall l s k,
  sym_lookup (fold_left (fun acc e => sym_set acc (fst e) (snd e)) l s) k =
  match sym_lookup (rev l) k with Some v => Some v | None => sym_lookup s k end.
Proof.
  induction l as [|[k1 v1] l IH]; intros s k; simpl; [reflexivity|].
  rewrite IH, sym_lookup_app, sym_lookup_set. simpl.
  destruct (sym_lookup (rev l) k); [reflexivity|].
  destruct (String.eqb k k1); reflexivity.
Qed.

(** __process_project's symbol table: _SDA2_BASE_ and _SDA_BASE_ always
    carry the project's sda2_base and sda_base, whatever the linked object
    defines; any other name takes the value of the last non-local ELF
    symbol of that name, and otherwise keeps its previous entry. *)
Theorem process_symbols_lookup : forall p linked k,
  sym_lookup (process_symbols p linked) k =
  if String.eqb k "_SDA2_BASE_" then Some (sda2_base p)
  else if String.eqb k "_SDA_BASE_" then Some (sda_base p)
  else match sym_lookup (rev linked) k with
       | Some v => Some v
       | None => sym_lookup (symbols p) k
       end.
Proof.
  intros p linked k. unfold process_symbols.
  rewrite !sym_lookup_set, sym_lookup_fold_set. reflexivity.
Qed.

(** Project.__init__ gives the CodeWarrior assembler no flags at all: the
    second test of the asm_flags chain repeats Assembler.DevkitPPC, so the
    ["-proc", "gekko"] list is never chosen. *)
Theorem codewarrior_assembler_gets_no_flags : forall windows compiler linker,
  asm_flags (init_toolchain windows compiler Assembler.CodeWarrior linker) = [] /\
  (forall assembler, init_asm_flags assembler <> ["-proc"; "gekko"]).
Proof.
  intros windows compiler linker. split; [reflexivity|].
  intros []; discriminate.
Qed.

Lemma list_set_length : forall l k v, (k < List.length l)%nat ->
  List.length (list_set l k v) = List.length l.
Proof.
  intros l k v Hk. unfold list_set. rewrite length_app, length_firstn.
  cbn [List.length]. rewrite length_skipn. lia.
Qed.

Lemma nth_list_set : forall l k v j, (k < List.length l)%nat ->
  nth j (list_set l k v) false = if Nat.eqb j k then v else nth j l false.
Proof.
  induction l as [|x l IH]; intros k v j Hk; simpl in Hk; [lia|].
  destruct k as [|k]; unfold list_set; simpl.
  - destruct j; reflexivity.
  - destruct j as [|j]; [reflexivity|]. simpl. apply IH. lia.
Qed.

(** The deprecated wrappers: two calls of add_branch append the same two
    hooks as two hook_branch calls, print the deprecation notice at most
    once (on the first call, unless it was printed before), and leave the
    flags of the other deprecated methods as they were. *)
Theorem add_branch_notice_once : forall p flags a1 n1 l1 a2 n2 l2,
  List.length flags = 12%nat ->
  let '(p1, flags1, out1) := add_branch (p, flags) a1 n1 l1 in
  let '(p2, flags2, out2) := add_branch (p1, flags1) a2 n2 l2 in
  p2 = hook_branch (hook_branch p a1 n1 l1) a2 n2 l2 /\
  out2 = [] /\
  (out1 = [] <-> nth 6 flags false = true) /\
  List.length flags2 = 12%nat /\
  (forall j, j <> 6%nat -> nth j flags2 false = nth j flags false).
Proof.
  intros p flags a1 n1 l1 a2 n2 l2 Hl. unfold add_branch, deprecated.
  destruct (nth 6 flags false) eqn:E6.
  - rewrite E6. split; [reflexivity|]. split; [reflexivity|].
    split; [split; reflexivity|]. split; [exact Hl|]. reflexivity.
  - rewrite nth_list_set by lia. simpl.
    split; [reflexivity|]. split; [reflexivity|].
    split; [split; discriminate|]. split; [rewrite list_set_length; lia|].
    intros j Hj. rewrite nth_list_set by lia.
    destruct (Nat.eqb_spec j 6); [contradiction|reflexivity].
Qed.


(* ------------------------------------------------------------------ *)
(** * Further properties: the toolchain steps *)

(** The object entry and the call a source entry gives. *)
Definition obj_entry (e : string * list string * bool) : string * bool :=
  let '(infile, _, _) := e in ((infile ++ ".o")%string, true).

Definition call_of (args_of : Toolchain -> string -> list string -> bool -> list string)
  (t : Toolchain) (e : string * list string * bool) : list string :=
  let '(infile, flags, use_global_flags) := e in args_of t infile flags use_global_flags.

Definition nonempty {A} (l : list A) : bool := match l with [] => false | _ => true end.

Lemma with_obj_files_twice : forall t l1 l2,
  with_obj_files (with_obj_files t l1) l2 = with_obj_files t l2.
Proof. reflexivity. Qed.

Lemma with_obj_files_same : forall t, with_obj_files t (obj_files t) = t.
Proof. intros []. reflexivity. Qed.

Lemma source_steps : forall args_of,
  (forall t l infile flags u, args_of (with_obj_files t l) infile flags u = args_of t infile flags u) ->
  forall files t calls b,
  fold_left (source_step args_of) files (t, calls, b) =
  (with_obj_files t (obj_files t ++ map obj_entry files),
   calls ++ map (call_of args_of t) files,
   b || nonempty files).
Proof.
  intros args_of Hind. induction files as [|[[infile flags] u] files IH]; intros t calls b.
  - simpl. rewrite !app_nil_r, orb_false_r, with_obj_files_same. reflexivity.
  - cbn [fold_left source_step]. rewrite IH, with_obj_files_twice. cbn [obj_files with_obj_files].
    rewrite <- !app_assoc. rewrite orb_true_r. simpl.
    f_equal; [f_equal; f_equal; f_equal; apply map_ext; intros [[i f] v]; apply Hind|].
    symmetry. apply orb_true_r.
Qed.

(** The part of __build_project after the directories are made. *)
Lemma build_project_eq : forall base t,
  let srcs := c_files t ++ cpp_files t ++ asm_files t in
  let t3 := with_obj_files t (obj_files t ++ map obj_entry srcs) in
  let calls := map (call_of compile_args t) (c_files t)
               ++ map (call_of compileplusplus_args t) (cpp_files t)
               ++ map (call_of assemble_args t) (asm_files t) in
  build_project base t =
  match srcs with
  | [] => ret (t, [], false)
  | _ => match base with
         | None => raise (RuntimeError "Base address not set!  New code cannot be linked.")
         | Some _ => ret (t3, calls ++ [link_args t3], true)
         end
  end.
Proof.
  intros base t srcs t3 calls. unfold build_project.
  rewrite !source_steps by reflexivity. cbn [obj_files with_obj_files].
  rewrite with_obj_files_twice. cbn [obj_files].
  rewrite <- !app_assoc, <- !map_app. simpl app.
  unfold t3, calls, srcs.
  destruct (c_files t) as [|c cs], (cpp_files t) as [|x xs], (asm_files t) as [|y ys];
    simpl; rewrite ?app_nil_r, ?with_obj_files_same; try reflexivity;
    destruct base; reflexivity.
Qed.


(** The link command of __build_project: with the DevkitPPC linker it is
    only [powerpc-eabi-ld -o project.o] and the linker flags, naming none of
    the object files the compile steps recorded; only the CodeWarrior
    linker is passed the object files (every entry of obj_files, in order)
    and a -Map file. *)
Theorem link_command_objects : forall b t t' calls,
  build_project (Some b) t = inr (t', calls, true) ->
  obj_files t' = obj_files t ++ map obj_entry (c_files t ++ cpp_files t ++ asm_files t) /\
  last calls [] =
  match linker t with
  | Linker.DevkitPPC =>
      [(devkitppc_path t ++ "powerpc-eabi-ld")%string; "-o";
       (obj_dir t ++ project_name t ++ ".o")%string] ++ linker_flags t
  | Linker.CodeWarrior =>
      [(codewarrior_path t ++ "mwldeppc")%string; "-o";
       (obj_dir t ++ project_name t ++ ".o")%string]
        ++ map (fun e => (obj_dir t ++ fst e)%string) (obj_files t')
        ++ ["-Map"; (obj_dir t ++ project_name t ++ ".map")%string] ++ linker_flags t
  end.
Proof.
  intros b t t' calls H. rewrite build_project_eq in H.
  destruct (c_files t ++ cpp_files t ++ asm_files t) as [|s ss] eqn:Hs; [discriminate|].
  injection H as <- <-. rewrite last_last. split; [reflexivity|].
  unfold link_args. cbn [linker obj_dir project_name devkitppc_path codewarrior_path
                         linker_flags with_obj_files obj_files].
  destruct (linker t); [reflexivity|]. rewrite <- !app_assoc. reflexivity.
Qed.

Lemma try_remove_in : forall fs q f,
  In f (fst (try_remove fs q)) <-> In f fs /\ f <> q.
Proof.
  intros fs q f. unfold try_remove. destruct (existsb (String.eqb q) fs) eqn:E; simpl.
  - rewrite filter_In. split.
    + intros [Hin Hn]. split; [exact Hin|]. intros ->. rewrite String.eqb_refl in Hn. discriminate.
    + intros [Hin Hn]. split; [exact Hin|]. apply negb_true_iff, String.eqb_neq. exact Hn.
  - split; [|tauto]. intros Hin. split; [exact Hin|]. intros ->.
    assert (existsb (String.eqb q) fs = true) by (apply existsb_exists; exists q;
      split; [exact Hin|apply String.eqb_refl]).
    congruence.
Qed.

Lemma cleanup_objects_in : forall dir l fs f,
  In f (fold_left (fun fs (e : string * bool) =>
                     let '(filename, do_cleanup) := e in
                     if do_cleanup then fst (try_remove fs (dir ++ filename)%string) else fs) l fs)
  <-> In f fs /\ (forall e, In e l -> snd e = true -> f <> (dir ++ fst e)%string).
Proof.
  induction l as [|[filename do] l IH]; intros fs f; simpl.
  - split; [intros H; split; [exact H|intros e []]|tauto].
  - rewrite IH. destruct do.
    + rewrite try_remove_in. split.
      * intros [[Hin Hne] Hall]. split; [exact Hin|].
        intros e [<- | He] Ht; [exact Hne|apply Hall; assumption].
      * intros [Hin Hall]. split; [split; [exact Hin|apply (Hall (filename, true)); auto]|].
        intros e He Ht. apply Hall; auto.
    + split.
      * intros [Hin Hall]. split; [exact Hin|]. intros e [<- | He] Ht; [discriminate|auto].
      * intros [Hin Hall]. split; [exact Hin|]. intros e He Ht. apply Hall; auto.
Qed.

(** Project.cleanup: afterwards a file still exists exactly when it existed
    before and is neither the project's .o, .bin or .map nor an object file
    registered with do_cleanup=True; obj_files, the symbol table and the
    Gecko code metadata are emptied, the hooks kept. *)
Theorem cleanup_removes : forall t p files t' p' files',
  cleanup t p files = (t', p', files') ->
  (forall f, In f files' <->
     In f files /\
     f <> (obj_dir t ++ project_name t ++ ".o")%string /\
     f <> (obj_dir t ++ project_name t ++ ".bin")%string /\
     f <> (obj_dir t ++ project_name t ++ ".map")%string /\
     (forall e, In e (obj_files t) -> snd e = true -> f <> (obj_dir t ++ fst e)%string)) /\
  obj_files t' = [] /\ symbols p' = [] /\ gecko_code_metadata p' = [] /\ hooks p' = hooks p.
Proof.
  intros t p files t' p' files' H. unfold cleanup in H. injection H as <- <- <-.
  split; [|repeat split].
  intros f. rewrite !try_remove_in, cleanup_objects_in. tauto.
Qed.

(* ------------------------------------------------------------------ *)
(** * Further properties: build_gecko *)

(** The codes whose as_text() a Gecko text output contains, in order. *)
Fixpoint code_texts (out : list gecko_text) : list GeckoCode :=
  match out with
  | [] => []
  | GCodeText c :: rest => c :: code_texts rest
  | _ :: rest => code_texts rest
  end.

Lemma code_texts_app : forall l1 l2, code_texts (l1 ++ l2) = code_texts l1 ++ code_texts l2.
Proof.
  induction l1 as [|[s|c|bs b|l] l1 IH]; intros l2; simpl; rewrite ?IH; reflexivity.
Qed.

Lemma code_texts_commands : forall ls, code_texts (map GCommand ls) = [].
Proof. induction ls; simpl; auto. Qed.

Lemma gecko_hooks_no_code_text : forall hs syms fs hs' ls,
  gecko_hooks hs syms fs = inr (hs', ls) -> code_texts ls = [].
Proof.
  induction hs as [|h hs IH]; intros syms fs hs' ls H; simpl in H.
  - injection H as _ <-. reflexivity.
  - destruct (resolve h syms fs) as [e|h1]; simpl in H; [discriminate|].
    destruct (write_geckocommand h1) as [h2 l].
    destruct (gecko_hooks hs syms fs) as [e|[hs2 ls2]] eqn:E; simpl in H; [discriminate|].
    injection H as _ <-. simpl. rewrite code_texts_app, code_texts_commands.
    apply (IH syms fs hs2 ls2 E).
Qed.

Lemma flat_map_enabled : forall (f : GeckoCode -> list gecko_text) table,
  flat_map (fun c => if enabled c then f c else []) table = flat_map f (filter enabled table).
Proof.
  intros f. induction table as [|c table IH]; simpl; [reflexivity|].
  destruct (enabled c); simpl; rewrite IH; reflexivity.
Qed.

(** Project.build_gecko writes, after the [Gecko] header and the project's
    code name, exactly the enabled codes of the table in table order, each
    as "* name" followed by its text; a disabled code's text appears
    nowhere in the output. *)
Theorem build_gecko_enabled_codes : forall p t elf fs t' p' out,
  build_gecko p t elf fs = inr (t', p', out) ->
  exists rest,
    out = [GLine "[Gecko]"; GLine ("$" ++ project_name t)%string]
          ++ flat_map (fun c => [GLine ("* " ++ code_name c)%string; GCodeText c])
                      (filter enabled (gecko_codetable p))
          ++ rest /\
    code_texts out = filter enabled (gecko_codetable p).
Proof.
  intros p t elf fs t' p' out H. unfold build_gecko in H.
  destruct (build_project (base_addr p) t) as [e|[[t1 calls] ok]]; simpl in H; [discriminate|].
  destruct (gecko_hooks (hooks p)
              (if ok then process_symbols p (snd elf) else symbols p) fs)
    as [e|[hs ls]] eqn:Eh; simpl in H; [discriminate|].
  injection H as _ _ <-. rewrite flat_map_enabled.
  eexists. split; [reflexivity|].
  cbn [code_texts app]. rewrite !code_texts_app. cbn [code_texts].
  rewrite (gecko_hooks_no_code_text _ _ _ _ _ Eh), app_nil_r.
  assert (Hp : forall d, code_texts match d with
                                    | [] => []
                                    | _ :: _ => [GLine "* Program Data"; GProgramData d (base_addr p)]
                                    end = []) by (intros []; reflexivity).
  rewrite Hp, app_nil_r.
  induction (filter enabled (gecko_codetable p)) as [|c cs IH]; simpl; [reflexivity|].
  f_equal. exact IH.
Qed.

(* ------------------------------------------------------------------ *)
(** * Further properties: the relocator and the symbol map *)

(** A recorded command entry lies within [lo, hi), unless its status makes
    save_map print it as UNUSED. *)
Definition entry_ok (lo hi : Z) (e : cmd_metadata) : Prop :=
  let '(cv, cn, cst, _) := e in cst = "OMITTED" \/ (lo <= cv /\ cv + cn <= hi).

Definition code_entries_ok (lo hi : Z) (m : code_metadata) : Prop :=
  let '(_, _, _, _, cmds) := m in Forall (entry_ok lo hi) cmds.

Lemma entry_ok_widen : forall lo hi lo' hi' e,
  lo' <= lo -> hi <= hi' -> entry_ok lo hi e -> entry_ok lo' hi' e.
Proof. intros lo hi lo' hi' [[[cv cn] cst] cmd] H1 H2 [H|H]; [left|right]; lia || auto. Qed.

Lemma value_le_fragment : forall cmd, zlen (value cmd) <= fragment_size cmd.
Proof.
  intros cmd. unfold fragment_size, drop_last4, zlen. rewrite length_firstn. lia.
Qed.

Lemma relocate_commands_layout : forall s v cmds dol gb md dol' gb' md',
  s <> "UNUSED" ->
  fold_left (relocate_command s v) cmds (dol, gb, md) = (dol', gb', md') ->
  exists g new,
    gb' = gb ++ g /\ md' = md ++ new /\
    Forall (entry_ok (v + zlen gb) (v + zlen gb')) new /\
    Forall (fun e : cmd_metadata => let '(_, _, cst, _) := e in cst = s) new /\
    (s <> "OMITTED" -> zlen g = asm_fragments_size cmds).
Proof.
  intros s v. induction cmds as [|cmd cmds IH]; intros dol gb md dol' gb' md' Hs H.
  - simpl in H. injection H as <- <- <-. exists [], [].
    rewrite !app_nil_r. repeat split; constructor.
  - cbn [fold_left] in H. unfold relocate_command at 2 in H.
    destruct (is_asm_insert (codetype_of cmd)) eqn:Ha.
    + destruct (String.eqb s "UNUSED" || String.eqb s "OMITTED") eqn:Eu.
      * apply orb_true_iff in Eu as [Eu|Eu]; apply String.eqb_eq in Eu; [contradiction|subst s].
        apply IH in H as [g [new [Hg [Hm [Hok [Hst Hz]]]]]]; [|discriminate].
        exists g, ((0, zlen (value cmd), "OMITTED", cmd) :: new).
        rewrite <- app_assoc in Hm. split; [exact Hg|]. split; [exact Hm|].
        split; [constructor; [left; reflexivity|exact Hok]|].
        split; [constructor; [reflexivity|exact Hst]|]. intros Hn. contradiction.
      * apply orb_false_iff in Eu as [_ Eo]. apply String.eqb_neq in Eo.
        apply IH in H as [g [new [Hg [Hm [Hok [Hst Hz]]]]]]; [|exact Hs].
        set (gb1 := gb ++ drop_last4 (value cmd)) in *.
        set (frag := drop_last4 (value cmd) ++
                       assemble_branch (v + zlen gb1) (Z.lor (_address cmd + 4) 0x80000000) false).
        assert (Hgb : gb1 ++ assemble_branch (v + zlen gb1)
                        (Z.lor (_address cmd + 4) 0x80000000) false = gb ++ frag)
          by (unfold gb1, frag; rewrite <- app_assoc; reflexivity).
        assert (Hf : zlen frag = fragment_size cmd)
          by (unfold frag, fragment_size; rewrite zlen_app; reflexivity).
        rewrite Hgb in Hg, Hok. rewrite <- app_assoc in Hg, Hm.
        exists (frag ++ g), ((v + zlen gb, zlen (value cmd), s, cmd) :: new).
        split; [exact Hg|]. split; [exact Hm|].
        assert (Hlen : zlen gb' = zlen gb + zlen frag + zlen g)
          by (rewrite Hg, !zlen_app; lia).
        pose proof (zlen_nonneg g). pose proof (value_le_fragment cmd).
        split.
        -- constructor.
           ++ right. lia.
           ++ eapply Forall_impl; [|exact Hok]. intros e.
              apply entry_ok_widen; rewrite ?zlen_app; pose proof (zlen_nonneg frag); lia.
        -- split; [constructor; [reflexivity|exact Hst]|].
           intros _. rewrite zlen_app, Hf, Hz by exact Eo. simpl. rewrite Ha. lia.
    + apply IH in H as [g [new [Hg [Hm [Hok [Hst Hz]]]]]]; [|exact Hs].
      exists g, new. repeat split; try assumption. intros Hn. simpl. rewrite Ha. auto.
Qed.

Lemma relocate_code_layout : forall b dol blob meta c dol' blob' meta',
  relocate_code b (dol, blob, meta) c = (dol', blob', meta') ->
  exists g new,
    blob' = blob ++ g /\ meta' = meta ++ new /\
    Forall (code_entries_ok (b + zlen blob) (b + zlen blob')) new /\
    (code_status c <> "OMITTED" -> zlen g = asm_fragments_size (commands c)).
Proof.
  intros b dol blob meta c dol' blob' meta' H. unfold relocate_code in H.
  destruct (fold_left (relocate_command (code_status c) (b + zlen blob)) (commands c)
              (dol, [], [])) as [[d g] cmd_md] eqn:E.
  assert (Hu : code_status c <> "UNUSED")
    by (destruct (code_status_values c) as [-> | [-> | ->]]; discriminate).
  destruct (relocate_commands_layout _ _ _ _ _ _ _ _ _ Hu E)
    as [g' [new [Hg [Hm [Hok [_ Hz]]]]]].
  simpl in Hg, Hm. subst g' new. injection H as <- <- <-.
  exists g, (match cmd_md with [] => [] | _ => [(b + zlen blob, zlen g, code_status c, c, cmd_md)] end).
  split; [reflexivity|]. split; [destruct cmd_md; [rewrite app_nil_r|]; reflexivity|].
  split; [|exact Hz].
  destruct cmd_md as [|e cmd_md]; [constructor|].
  constructor; [|constructor]. simpl.
  replace (b + zlen (blob ++ g)) with (b + zlen blob + zlen g) by (rewrite zlen_app; lia).
  rewrite Z.add_0_r in Hok. exact Hok.
Qed.

(** A code without inline-assembly (C2/F2) commands is left to
    GeckoCodeTable.apply: whatever its status, the relocator writes nothing
    to the image, appends nothing to the blob and records no metadata. *)
Theorem relocate_code_without_asm : forall b dol blob meta c,
  forallb (fun cmd => negb (is_asm_insert (codetype_of cmd))) (commands c) = true ->
  relocate_code b (dol, blob, meta) c = (dol, blob, meta).
Proof.
  intros b dol blob meta c H. unfold relocate_code.
  assert (E : forall cmds acc,
             forallb (fun cmd => negb (is_asm_insert (codetype_of cmd))) cmds = true ->
             fold_left (relocate_command (code_status c) (b + zlen blob)) cmds acc = acc).
  { induction cmds as [|x xs IH]; intros acc Hx; simpl in *; [reflexivity|].
    apply andb_true_iff in Hx as [Hx Hxs]. apply negb_true_iff in Hx.
    destruct acc as [[d g] m]. unfold relocate_command at 2. rewrite Hx. apply IH, Hxs. }
  rewrite E by exact H. rewrite app_nil_r. reflexivity.
Qed.

(** For a code that is not OMITTED (an enabled one, or, see C1, a disabled
    one), the relocator appends to the blob exactly value[:-4] followed by
    a 4-byte branch back to the command's origin + 4, for each
    inline-assembly command in order, the code's first fragment at
    base + len(blob): len(value) bytes per command when the payload has at
    least 4 bytes, and 4 bytes otherwise. *)
Theorem relocate_code_blob_growth : forall b dol blob meta c dol' blob' meta',
  code_status c <> "OMITTED" ->
  relocate_code b (dol, blob, meta) c = (dol', blob', meta') ->
  exists g, blob' = blob ++ g /\
  g = expected_fragments (b + zlen blob) (commands c) /\
  zlen g = asm_fragments_size (commands c) /\
  asm_fragments_size (commands c) =
    fold_right Z.add 0
      (map (fun cmd => Z.max (zlen (value cmd)) 4)
           (filter (fun cmd => is_asm_insert (codetype_of cmd)) (commands c))).
Proof.
  intros b dol blob meta c dol' blob' meta' Hs H.
  destruct (relocate_code_layout _ _ _ _ _ _ _ _ H) as [g [new [Hg [_ [_ Hz]]]]].
  exists g. split; [exact Hg|].
  split.
  { destruct (relocate_code_eq _ _ _ _ _ _ _ _ H) as [Hb _].
    rewrite Hg in Hb. apply app_inv_head in Hb. rewrite Hb. unfold code_blob.
    apply String.eqb_neq in Hs. rewrite Hs. reflexivity. }
  split; [apply Hz, Hs|]. clear Hz H Hg Hs.
  induction (commands c) as [|cmd cmds IH]; simpl; [reflexivity|].
  destruct (is_asm_insert (codetype_of cmd)); cbn [filter map fold_right]; rewrite IH; [|reflexivity].
  f_equal. unfold fragment_size, drop_last4, zlen. rewrite length_firstn. lia.
Qed.

Lemma relocate_table_entries : forall b table dol blob meta dol' blob' meta',
  relocate_table b table (dol, blob, meta) = (dol', blob', meta') ->
  exists g new, blob' = blob ++ g /\ meta' = meta ++ new /\
    Forall (code_entries_ok (b + zlen blob) (b + zlen blob')) new.
Proof.
  intros b table. unfold relocate_table.
  induction table as [|c table IH]; intros dol blob meta dol' blob' meta' H.
  - simpl in H. injection H as <- <- <-. exists [], [].
    rewrite !app_nil_r. repeat split; constructor.
  - cbn [fold_left] in H.
    destruct (relocate_code b (dol, blob, meta) c) as [[d1 blob1] meta1] eqn:E1.
    destruct (relocate_code_layout _ _ _ _ _ _ _ _ E1) as [g1 [new1 [Hg1 [Hm1 [Hok1 _]]]]].
    destruct (IH _ _ _ _ _ _ H) as [g2 [new2 [Hg2 [Hm2 Hok2]]]].
    exists (g1 ++ g2), (new1 ++ new2). subst blob1 meta1.
    rewrite <- !app_assoc in *. split; [exact Hg2|]. split; [exact Hm2|].
    assert (Hlen : zlen blob' = zlen blob + zlen g1 + zlen g2)
      by (rewrite Hg2, !zlen_app; lia).
    pose proof (zlen_nonneg g1). pose proof (zlen_nonneg g2).
    apply Forall_app. split.
    + eapply Forall_impl; [|exact Hok1]. intros [[[[v s] st] c'] cmds] Hc.
      eapply Forall_impl; [|exact Hc]. intros e.
      apply entry_ok_widen; rewrite ?zlen_app; lia.
    + eapply Forall_impl; [|exact Hok2]. intros [[[[v s] st] c'] cmds] Hc.
      eapply Forall_impl; [|exact Hc]. intros e.
      apply entry_ok_widen; rewrite ?zlen_app; lia.
Qed.

Lemma map_commands_entry : forall b name i cmds ls off n v nm j,
  map_commands (Some b) name i cmds = inr ls ->
  In (MEntry off n v nm j) ls ->
  exists cst cmd, In (v, n, cst, cmd) cmds /\ cst <> "OMITTED" /\ off = v - b.
Proof.
  intros b name i cmds. revert i.
  induction cmds as [|[[[cv cn] cst] cmd] cmds IH]; intros i ls off n v nm j H Hin.
  - simpl in H. injection H as <-. destruct Hin.
  - simpl in H.
    destruct (is_asm_insert (codetype_of cmd)) eqn:Ha;
      [destruct (String.eqb cst "OMITTED") eqn:Eo|].
    + destruct (map_commands (Some b) name (i + 1) cmds) as [e|more] eqn:Em; [discriminate|].
      injection H as <-. destruct Hin as [Hin|Hin]; [discriminate|].
      destruct (IH _ _ _ _ _ _ _ Em Hin) as [cst' [cmd' [Hi [Hn Ho]]]].
      exists cst', cmd'. split; [right; exact Hi|auto].
    + destruct (map_commands (Some b) name (i + 1) cmds) as [e|more] eqn:Em; [discriminate|].
      injection H as <-. destruct Hin as [Hin|Hin].
      * injection Hin as <- <- <- _ _. exists cst, cmd.
        split; [left; reflexivity|]. split; [apply String.eqb_neq, Eo|reflexivity].
      * destruct (IH _ _ _ _ _ _ _ Em Hin) as [cst' [cmd' [Hi [Hn Ho]]]].
        exists cst', cmd'. split; [right; exact Hi|auto].
    + destruct (map_commands (Some b) name (i + 1) cmds) as [e|more] eqn:Em; [discriminate|].
      injection H as <-. simpl in Hin.
      destruct (IH _ _ _ _ _ _ _ Em Hin) as [cst' [cmd' [Hi [Hn Ho]]]].
      exists cst', cmd'. split; [right; exact Hi|auto].
Qed.

Lemma map_codes_entry : forall b meta ls off n v nm j,
  map_codes (Some b) meta = inr ls ->
  In (MEntry off n v nm j) ls ->
  exists m, In m meta /\
    let '(_, _, _, _, cmds) := m in
    exists cst cmd, In (v, n, cst, cmd) cmds /\ cst <> "OMITTED" /\ off = v - b.
Proof.
  intros b. induction meta as [|[[[[cv cs] st] c] cmds] meta IH]; intros ls off n v nm j H Hin.
  - simpl in H. injection H as <-. destruct Hin.
  - simpl in H.
    destruct (map_commands (Some b) (code_name c) 0 cmds) as [e|here] eqn:Eh; [discriminate|].
    destruct (map_codes (Some b) meta) as [e|more] eqn:Em; [discriminate|].
    injection H as <-. apply in_app_or in Hin as [Hin|Hin].
    + exists (cv, cs, st, c, cmds). split; [left; reflexivity|].
      exact (map_commands_entry _ _ _ _ _ _ _ _ _ _ Eh Hin).
    + destruct (IH _ _ _ _ _ _ eq_refl Hin) as [m [Hm Hc]]. exists m. split; [right; exact Hm|exact Hc].
Qed.

(** The symbol map of a fresh build: every Gecko symbol line save_map
    writes (one per relocated inline-assembly command, i.e. every entry
    that is not printed as UNUSED) has offset = vaddr - base_addr, and the
    range [offset, offset + size) lies inside the new section's blob,
    after the linked project.bin (padded to 4 bytes). *)
Theorem save_map_entries_in_blob :
  forall p dol built fs apply_table p' dol5 elf_lines lines off n v name i,
  gecko_code_metadata p = [] ->
  build_dol p dol built fs apply_table = inr (p', dol5) ->
  save_map (base_addr p') elf_lines (gecko_code_metadata p') = inr lines ->
  In (MEntry off n v name i) lines ->
  ~ In (MEntry off n v name i) elf_lines ->
  let '(b, _, _, blob, _) := relocation_stage p dol built in
  v = b + off /\
  zlen (match built with Some (bin, _) => pad4 bin | None => [] end) <= off /\
  off + n <= zlen blob.
Proof.
  intros p dol built fs apply_table p' dol5 elf_lines lines off n v name i
         Hm0 Hb Hs Hin Helf.
  unfold build_dol in Hb.
  destruct (relocation_stage p dol built) as [[[[b syms] dol1] blob] meta] eqn:Er.
  destruct (apply_hooks (hooks p) syms fs (apply_table (gecko_codetable p) dol1))
    as [e|r] eqn:Eh; [discriminate|]. cbn [bind] in Hb.
  destruct (append_blob (snd r) b blob) as [e|dol4] eqn:Ea; [discriminate|].
  cbn [bind ret] in Hb. injection Hb as <- _. cbn [base_addr gecko_code_metadata] in Hs.
  unfold relocation_stage in Er. rewrite Hm0 in Er.
  set (blob0 := match built with Some (bin, _) => pad4 bin | None => [] end) in *.
  destruct (relocate_table (fst (choose_base_addr (base_addr p) dol)) (gecko_codetable p)
              (dol, blob0, [])) as [[d1 blob1] meta1] eqn:Et.
  injection Er as Eb _ <- <- <-.
  assert (Eb' : fst (choose_base_addr (base_addr p) dol) = b) by exact Eb. rewrite Eb' in Et.
  destruct (relocate_table_entries _ _ _ _ _ _ _ _ Et) as [g [new [Hg [Hm Hok]]]].
  simpl in Hm. subst meta1.
  unfold save_map in Hs. destruct new as [|m0 new'].
  - cbn [bind ret] in Hs. injection Hs as <-.
    apply in_app_or in Hin as [Hin|Hin]; [contradiction|].
    destruct Hin as [Hin|[Hin|[]]]; discriminate.
  - destruct (map_codes (Some b) (m0 :: new')) as [e|ls] eqn:Ec; [discriminate|].
    cbn [bind ret] in Hs. injection Hs as <-.
    apply in_app_or in Hin as [Hin|Hin]; [contradiction|].
    destruct Hin as [Hin|Hin]; [discriminate|].
    apply in_app_or in Hin as [Hin|Hin];
      [|destruct Hin as [Hin|[Hin|[]]]; discriminate].
    destruct (map_codes_entry _ _ _ _ _ _ _ _ Ec Hin) as [m [Hmi Hc]].
    rewrite Forall_forall in Hok. specialize (Hok m Hmi).
    destruct m as [[[[cv cs] st] c] cmds]. simpl in Hok.
    destruct Hc as [cst [cmd [Hci [Hcst Hoff]]]].
    rewrite Forall_forall in Hok. specialize (Hok _ Hci).
    destruct Hok as [Ho|[Hlo Hhi]]; [contradiction|]. lia.
Qed.

(** build_dol end to end, without an OSArena patcher: the project records
    the base address, the symbol table and the code metadata of the
    relocation stage, and, when the blob is not empty, the saved image has
    a new section at the base address of the blob's size, holding the blob
    byte for byte (the hooks are applied before, so they do not overwrite
    it). *)
Theorem build_dol_blob_in_image : forall p dol built fs apply_table p' dol5,
  osarena_patcher p = None ->
  build_dol p dol built fs apply_table = inr (p', dol5) ->
  let '(b, syms, _, blob, meta) := relocation_stage p dol built in
  base_addr p' = Some b /\ symbols p' = syms /\ gecko_code_metadata p' = meta /\
  (zlen blob > 0 ->
   In (mkSection b (zlen blob)) (textSections dol5 ++ dataSections dol5) /\
   read_at (mem dol5) b (List.length blob) = blob).
Proof.
  intros p dol built fs apply_table p' dol5 Hos Hb. unfold build_dol in Hb.
  destruct (relocation_stage p dol built) as [[[[b syms] dol1] blob] meta].
  destruct (apply_hooks (hooks p) syms fs (apply_table (gecko_codetable p) dol1))
    as [e|r]; [discriminate|]. cbn [bind] in Hb.
  destruct (append_blob (snd r) b blob) as [e|dol4] eqn:Ea; [discriminate|].
  cbn [bind ret] in Hb. rewrite Hos in Hb.
  assert (E5 : (if zlen blob >? 0 then dol4 else dol4) = dol4) by (destruct (zlen blob >? 0); reflexivity).
  rewrite E5 in Hb. injection Hb as <- <-. cbn [base_addr symbols gecko_code_metadata].
  split; [reflexivity|]. split; [reflexivity|]. split; [reflexivity|].
  intros Hz. unfold append_blob in Ea.
  replace (zlen blob >? 0) with true in Ea by (symmetry; apply Z.gtb_lt; lia).
  destruct (zlen (textSections (snd r)) <=? MaxTextSections);
    [|destruct (zlen (dataSections (snd r)) <=? MaxDataSections); [|discriminate]];
    injection Ea as <-; cbn [textSections dataSections mem append_text_section append_data_section];
    (split; [apply in_or_app; first [left; apply in_or_app; right; left; reflexivity
                                    | right; apply in_or_app; right; left; reflexivity]
            | apply read_write_at]).
Qed.

(* ------------------------------------------------------------------ *)
(** * Concrete instances of the further properties *)

(** One text section [0x80003000, 0x80003100), zero-filled. *)
Definition sample_image : DolFile := mkDol [mkSection 0x80003000 0x100] [] (fun _ => 0) 0.

Definition sample_syms : symtab := [("main", Some 0x80003080); ("table", Some 0x80401234)].

(** Only patch.bin exists. *)
Definition sample_fs : filesystem :=
  fun path => if String.eqb path "patch.bin" then Some [1; 2; 3] else None.

(** A toolchain with one C file, one assembly file and one object file
    marked for cleanup. *)
Definition sample_toolchain (l : Linker.t) : Toolchain :=
  mkToolchain Compiler.DevkitPPC Assembler.DevkitPPC l
    "/opt/devkitpro/devkitPPC/bin/" "/" "" "build/" "project"
    [("main.c", ["-O2"], true)] [] [("hooks.s", [], false)] [("lib.o", true)]
    [] ["-O1"] [] ["-w"] ["-lgcc"].

(** A code with a C2 command and an F2 command, each carrying one
    instruction and the placeholder word. *)
Definition inline_code : GeckoCode :=
  mkCode "inline" true [mkCommand ASM_INSERT 0x3010 [0x38; 0x60; 0; 1; 0; 0; 0; 0];
                        mkCommand ASM_INSERT_XOR 0x3020 [0x38; 0x80; 0; 2; 0; 0; 0; 0]].
Definition write_code : GeckoCode := mkCode "speed" true [mkCommand WRITE_32 0x3040 [0; 0; 0; 1]].
Definition off_code : GeckoCode := mkCode "off" false [mkCommand WRITE_32 0x3044 [0; 0; 0; 2]].

Definition sample_project : Project :=
  mkProject (Some 0x80004000) None None [] [] [inline_code; write_code; off_code] [] None.

Definition or_default {A} (r : result A) (d : A) : A :=
  match r with inr x => x | inl _ => d end.

Definition string_hook_sample : Hook := new_hook (StringHook "hi" "ascii" (Some 6)) 0x80003000.
Definition string_hook_sample_resolved : Hook :=
  or_default (resolve string_hook_sample sample_syms sample_fs) string_hook_sample.
Definition pointer_hook_sample_resolved : Hook :=
  let h := new_hook (PointerHook "table") 0x80003004 in
  or_default (resolve h sample_syms sample_fs) h.

Definition sample_build : Toolchain * list (list string) * bool :=
  or_default (build_project (Some 0x80400000) (sample_toolchain Linker.CodeWarrior))
             (sample_toolchain Linker.CodeWarrior, [], false).

Definition sample_cleanup : Toolchain * Project * list string :=
  cleanup (fst (fst sample_build)) sample_project
          ["build/project.o"; "build/main.c.o"; "build/lib.o"; "build/project.map"; "readme.txt"].

Definition sample_gecko : Toolchain * Project * list gecko_text :=
  or_default (build_gecko sample_project (sample_toolchain Linker.DevkitPPC)
                          ([0; 0; 0; 0], [("main", Some 0x80004000)]) sample_fs)
             (sample_toolchain Linker.DevkitPPC, sample_project, []).

Definition sample_relocated : DolFile * list Z * list code_metadata :=
  relocate_code 0x80004000 (sample_image, [], []) inline_code.

Definition sample_dol_build : Project * DolFile :=
  or_default (build_dol sample_project sample_image None sample_fs (fun _ d => d))
             (sample_project, sample_image).

Definition sample_map : list map_line :=
  or_default (save_map (base_addr (fst sample_dol_build)) []
                       (gecko_code_metadata (fst sample_dol_build))) [].

Lemma resolve_idempotent_witness :
  resolve string_hook_sample sample_syms sample_fs = inr string_hook_sample_resolved /\
  resolve string_hook_sample_resolved sample_syms sample_fs = inr string_hook_sample_resolved.
Proof.
  assert (E : resolve string_hook_sample sample_syms sample_fs = inr string_hook_sample_resolved)
    by (vm_compute; reflexivity).
  split; [exact E|exact (resolve_idempotent _ _ _ _ E)].
Defined.

Lemma apply_dol_after_resolve_witness :
  exists h2 dol2, apply_dol pointer_hook_sample_resolved sample_image = inr (h2, dol2).
Proof.
  apply (apply_dol_after_resolve (PointerHook "table") 0x80003004 sample_syms sample_fs).
  - vm_compute. reflexivity.
  - intros name v E L. injection E as <-. vm_compute in L. injection L as <-. lia.
  - vm_compute. reflexivity.
Defined.

Lemma branch_hook_writes_branch_witness :
  exists h1 h2 dol2,
    resolve (new_hook (BranchHook "main" true) 0x80003000) sample_syms sample_fs = inr h1 /\
    apply_dol h1 sample_image = inr (h2, dol2) /\ good h2 = true /\
    decode_branch 0x80003000 (read_at (mem dol2) 0x80003000 4) = Some (0x80003080, true).
Proof.
  apply (branch_hook_writes_branch "main" true 0x80003000 sample_syms sample_fs sample_image
                                   0x80003080);
    first [vm_compute; reflexivity | lia].
Defined.

Lemma pointer_hook_writes_word_witness :
  exists h1,
    resolve (new_hook (PointerHook "table") 0x80003004) sample_syms sample_fs = inr h1 /\
    ((0 <= 0x80401234 < 2 ^ 32 ->
      exists h2 dol2, apply_dol h1 sample_image = inr (h2, dol2) /\ good h2 = true /\
                      read_at (mem dol2) 0x80003004 4 = be32 0x80401234) /\
     (~ (0 <= 0x80401234 < 2 ^ 32) -> apply_dol h1 sample_image = inl StructError)).
Proof.
  apply (pointer_hook_writes_word "table" 0x80003004 sample_syms sample_fs sample_image
                                  0x80401234);
    first [vm_compute; reflexivity | lia].
Defined.

Lemma file_hook_missing_file_marked_good_witness :
  exists h1 h2 dol2,
    resolve (new_hook (FileHook "missing.bin" 0 None None) 0x80003000) sample_syms sample_fs
      = inr h1 /\
    data h1 = PBytes [] /\
    apply_dol h1 sample_image = inr (h2, dol2) /\ good h2 = true /\
    mem dol2 = mem sample_image /\ sections dol2 = sections sample_image /\
    write_geckocommand h1 = (set_good h1, [GWriteString (PBytes []) 0x80003000]).
Proof.
  apply (file_hook_missing_file_marked_good "missing.bin" 0 None None 0x80003000
                                            sample_syms sample_fs sample_image);
    vm_compute; reflexivity.
Defined.

Lemma add_branch_notice_once_witness :
  let '(p1, flags1, out1) := add_branch (sample_project, repeat false 12) 0x80003000 "main" false in
  let '(p2, flags2, out2) := add_branch (p1, flags1) 0x80003008 "main" true in
  p2 = hook_branch (hook_branch sample_project 0x80003000 "main" false) 0x80003008 "main" true /\
  out2 = [] /\
  (out1 = [] <-> nth 6 (repeat false 12) false = true) /\
  List.length flags2 = 12%nat /\
  (forall j, j <> 6%nat -> nth j flags2 false = nth j (repeat false 12) false).
Proof.
  apply (add_branch_notice_once sample_project (repeat false 12) 0x80003000 "main" false
                                0x80003008 "main" true).
  reflexivity.
Defined.

Lemma link_command_objects_witness :
  let t := sample_toolchain Linker.CodeWarrior in
  let t' := fst (fst sample_build) in
  obj_files t' = obj_files t ++ map obj_entry (c_files t ++ cpp_files t ++ asm_files t) /\
  last (snd (fst sample_build)) [] =
  match linker t with
  | Linker.DevkitPPC =>
      [(devkitppc_path t ++ "powerpc-eabi-ld")%string; "-o";
       (obj_dir t ++ project_name t ++ ".o")%string] ++ linker_flags t
  | Linker.CodeWarrior =>
      [(codewarrior_path t ++ "mwldeppc")%string; "-o";
       (obj_dir t ++ project_name t ++ ".o")%string]
        ++ map (fun e => (obj_dir t ++ fst e)%string) (obj_files t')
        ++ ["-Map"; (obj_dir t ++ project_name t ++ ".map")%string] ++ linker_flags t
  end.
Proof.
  apply (link_command_objects 0x80400000 (sample_toolchain Linker.CodeWarrior)
                              (fst (fst sample_build)) (snd (fst sample_build))).
  vm_compute. reflexivity.
Defined.

Lemma cleanup_removes_witness :
  let t := fst (fst sample_build) in
  let '(t', p', files') := sample_cleanup in
  (forall f, In f files' <->
     In f ["build/project.o"; "build/main.c.o"; "build/lib.o"; "build/project.map"; "readme.txt"] /\
     f <> (obj_dir t ++ project_name t ++ ".o")%string /\
     f <> (obj_dir t ++ project_name t ++ ".bin")%string /\
     f <> (obj_dir t ++ project_name t ++ ".map")%string /\
     (forall e, In e (obj_files t) -> snd e = true -> f <> (obj_dir t ++ fst e)%string)) /\
  obj_files t' = [] /\ symbols p' = [] /\ gecko_code_metadata p' = [] /\
  hooks p' = hooks sample_project.
Proof.
  apply (cleanup_removes (fst (fst sample_build)) sample_project
           ["build/project.o"; "build/main.c.o"; "build/lib.o"; "build/project.map"; "readme.txt"]
           (fst (fst sample_cleanup)) (snd (fst sample_cleanup)) (snd sample_cleanup)).
  vm_compute. reflexivity.
Defined.

Lemma build_gecko_enabled_codes_witness :
  exists rest,
    snd sample_gecko =
      [GLine "[Gecko]"; GLine ("$" ++ project_name (sample_toolchain Linker.DevkitPPC))%string]
      ++ flat_map (fun c => [GLine ("* " ++ code_name c)%string; GCodeText c])
                  (filter enabled (gecko_codetable sample_project))
      ++ rest /\
    code_texts (snd sample_gecko) = filter enabled (gecko_codetable sample_project).
Proof.
  apply (build_gecko_enabled_codes sample_project (sample_toolchain Linker.DevkitPPC)
           ([0; 0; 0; 0], [("main", Some 0x80004000)]) sample_fs
           (fst (fst sample_gecko)) (snd (fst sample_gecko)) (snd sample_gecko)).
  vm_compute. reflexivity.
Defined.

Lemma relocate_code_without_asm_witness :
  relocate_code 0x80004000 (sample_image, [1; 2; 3; 4], []) write_code
    = (sample_image, [1; 2; 3; 4], []).
Proof. apply relocate_code_without_asm. reflexivity. Defined.

Lemma relocate_code_blob_growth_witness :
  exists g, snd (fst sample_relocated) = [] ++ g /\
  g = expected_fragments (0x80004000 + zlen (@nil Z)) (commands inline_code) /\
  zlen g = asm_fragments_size (commands inline_code) /\
  asm_fragments_size (commands inline_code) =
    fold_right Z.add 0
      (map (fun cmd => Z.max (zlen (value cmd)) 4)
           (filter (fun cmd => is_asm_insert (codetype_of cmd)) (commands inline_code))).
Proof.
  apply (relocate_code_blob_growth 0x80004000 sample_image [] [] inline_code
           (fst (fst sample_relocated)) (snd (fst sample_relocated)) (snd sample_relocated)).
  - vm_compute. discriminate.
  - vm_compute. reflexivity.
Defined.

Lemma save_map_entries_in_blob_witness :
  let '(b, _, _, blob, _) := relocation_stage sample_project sample_image None in
  0x80004008 = b + 8 /\ zlen (@nil Z) <= 8 /\ 8 + 8 <= zlen blob.
Proof.
  apply (save_map_entries_in_blob sample_project sample_image None sample_fs (fun _ d => d)
           (fst sample_dol_build) (snd sample_dol_build) [] sample_map
           8 8 0x80004008 "inline" 1).
  - reflexivity.
  - vm_compute. reflexivity.
  - vm_compute. reflexivity.
  - vm_compute. right. right. left. reflexivity.
  - intros [].
Defined.

Lemma build_dol_blob_in_image_witness :
  let '(b, syms, _, blob, meta) := relocation_stage sample_project sample_image None in
  base_addr (fst sample_dol_build) = Some b /\ symbols (fst sample_dol_build) = syms /\
  gecko_code_metadata (fst sample_dol_build) = meta /\
  (zlen blob > 0 ->
   In (mkSection b (zlen blob))
      (textSections (snd sample_dol_build) ++ dataSections (snd sample_dol_build)) /\
   read_at (mem (snd sample_dol_build)) b (List.length blob) = blob).
Proof.
  apply (build_dol_blob_in_image sample_project sample_image None sample_fs (fun _ d => d)
           (fst sample_dol_build) (snd sample_dol_build)).
  - reflexivity.
  - vm_compute. reflexivity.
Defined.

Lemma string_hook_resolved_bytes_witness :
  exists bs pad,
    resolve (new_hook (StringHook "Hi" "ascii" (Some 6)) 0x80003000) sample_syms sample_fs
      = inr (set_data (new_hook (StringHook "Hi" "ascii" (Some 6)) 0x80003000) (PBytes bs)) /\
    bs = encode "Hi" ++ [0] ++ pad /\ Forall (fun x => x = 0) pad /\
    zlen bs = Z.max (zlen (encode "Hi") + 1) 6 /\
    (string_exceeds_warning "Hi" (Some 6) = true ->
     pad = [] /\ exists m, Some 6 = Some m /\ m < zlen bs).
Proof.
  apply (string_hook_resolved_bytes "Hi" "ascii" (Some 6) 0x80003000 sample_syms sample_fs).
  reflexivity.
Defined.

